(** * sunpy.coordinates.utilities: Sun-specific coordinate calculations

    A shallow embedding of [sunpy/coordinates/utilities.py] and the
    properties of its public functions.

    The module is a thin layer over astropy (times, frames, ephemerides) and
    numpy.  Those collaborators are a parameter of the development (the
    record [Library]); the arithmetic the module itself performs on their
    results (cross and dot products, norms, the Carrington rotation count,
    the matrix product with the de-tilt matrix) is written out over an
    interface of scalar operations, [Arith], which has two instances: the
    real numbers, for the geometry and the ranges of angles, and IEEE 754
    binary64 floats, for the behaviour of the divisions at a zero divisor.
    Physical units are left out: angles are in degrees unless said
    otherwise, lengths in the unit of the representation. *)

From Stdlib Require Import ZArith String Bool.
From Stdlib Require Import Reals Lra.
From Stdlib Require Import Floats.

Set Implicit Arguments.

(** ** Scalars *)

(** The operations of a numpy scalar that the module uses. *)
Class Arith (F : Type) : Type := {
  of_Z : Z -> F;
  nadd : F -> F -> F;
  nsub : F -> F -> F;
  nmul : F -> F -> F;
  ndiv : F -> F -> F;
  nsqrt : F -> F
}.

Declare Scope num_scope.
Delimit Scope num_scope with num.
Infix "+" := nadd : num_scope.
Infix "-" := nsub : num_scope.
Infix "*" := nmul : num_scope.
Infix "/" := ndiv : num_scope.

(** What numpy and astropy.coordinates.Angle add to the scalars: the
    two-argument arctangent (radians), the conversion [.to('deg')] of an
    angle in radians, and the wrapping that the constructor [Longitude]
    applies (default wrap angle 360 deg). *)
Class Angles (F : Type) : Type := {
  arctan2 : F -> F -> F;
  rad_to_deg : F -> F;
  Longitude : F -> F
}.

(** ** Representations *)

Section Representations.
Context {F : Type} {AR : Arith F}.
Local Open Scope num_scope.

Record CartesianRepresentation : Type := mkCart { cart_x : F; cart_y : F; cart_z : F }.

Record SphericalRepresentation : Type := mkSph { sph_lon : F; sph_lat : F; sph_distance : F }.

(** A 3x3 matrix, by rows. *)
Record Matrix : Type := mkMatrix {
  row0 : CartesianRepresentation;
  row1 : CartesianRepresentation;
  row2 : CartesianRepresentation
}.

(** [a.cross(b)] *)
Definition cross (a b : CartesianRepresentation) : CartesianRepresentation :=
  mkCart (cart_y a * cart_z b - cart_z a * cart_y b)
         (cart_z a * cart_x b - cart_x a * cart_z b)
         (cart_x a * cart_y b - cart_y a * cart_x b).

(** [a.dot(b)]: the products of the components, summed from the left. *)
Definition dot (a b : CartesianRepresentation) : F :=
  cart_x a * cart_x b + cart_y a * cart_y b + cart_z a * cart_z b.

(** [a.norm()] *)
Definition norm (a : CartesianRepresentation) : F :=
  nsqrt (cart_x a * cart_x a + cart_y a * cart_y a + cart_z a * cart_z a).

(** [a / k], as in [a /= a.norm()]. *)
Definition cart_div (a : CartesianRepresentation) (k : F) : CartesianRepresentation :=
  mkCart (cart_x a / k) (cart_y a / k) (cart_z a / k).

(** [a.transform(m)]: the matrix applied to the vector. *)
Definition cart_transform (a : CartesianRepresentation) (m : Matrix) : CartesianRepresentation :=
  mkCart (dot (row0 m) a) (dot (row1 m) a) (dot (row2 m) a).

(** [CartesianRepresentation(0, 0, 1)] *)
Definition unit_z : CartesianRepresentation := mkCart (of_Z 0) (of_Z 0) (of_Z 1).

End Representations.

Arguments CartesianRepresentation F : clear implicits.
Arguments SphericalRepresentation F : clear implicits.
Arguments Matrix F : clear implicits.

(** ** Frames and sky coordinates *)

Inductive FrameClass : Type :=
| ICRS
| HCRS
| HGS  (* HeliographicStonyhurst *)
| PrecessedGeocentric
| AltAz.

(** A frame: its class and the frame attributes that the module sets.  An
    attribute that is not given is [None]. *)
Record Frame (Time EarthLocation : Type) : Type := mkFrame {
  frame_class : FrameClass;
  frame_obstime : option Time;
  frame_equinox : option Time;
  frame_location : option EarthLocation
}.

Inductive Representation (F : Type) : Type :=
| Spherical (s : SphericalRepresentation F)
| Cartesian (c : CartesianRepresentation F).

Record SkyCoord (F Time EarthLocation : Type) : Type := mkSkyCoord {
  sc_frame : Frame Time EarthLocation;
  sc_data : Representation F
}.

(** ** Exceptions *)

Inductive exn : Type :=
| TimeParsingError     (* parse_time or Time(...) rejects its input *)
| EphemerisError       (* get_body_barycentric fails *)
| FrameTransformError  (* transform_to fails *)
| NameError.           (* a module-level name read before it is bound *)

Inductive result (A : Type) : Type :=
| Ok (a : A)
| Raise (e : exn).

Arguments Raise {A} e.

(** ** The collaborators *)

(** What the module imports: astropy.time.Time, the parser of sunpy.time,
    astropy's ephemeris and frame transformations, the conversions between
    representations, and the de-tilt matrix of sunpy's transformations. *)
Record Library (F Time datetime EarthLocation : Type) : Type := {
  (* sunpy.time.parse_time on any input that is not the 'now' sentinel *)
  parse_time_other : string -> result datetime;
  (* Time(<datetime>) *)
  Time_of_datetime : datetime -> result Time;
  (* Time('<string>') *)
  Time_of_string : string -> result Time;
  (* Time.jd *)
  jd : Time -> F;
  (* get_body_barycentric('earth', t) *)
  get_body_barycentric_earth : Time -> result (CartesianRepresentation F);
  (* SkyCoord.transform_to(frame) *)
  transform_to : SkyCoord F Time EarthLocation -> Frame Time EarthLocation ->
                 result (SkyCoord F Time EarthLocation);
  (* SphericalRepresentation.to_cartesian() *)
  sph_to_cartesian : SphericalRepresentation F -> CartesianRepresentation F;
  (* CartesianRepresentation.represent_as(SphericalRepresentation) *)
  cartesian_to_sph : CartesianRepresentation F -> SphericalRepresentation F;
  (* sunpy.coordinates.transformations._sun_detilt_matrix *)
  _sun_detilt_matrix : Matrix F
}.

(** ** The module *)

(** The argument [time] of the public functions: an astropy [Time]
    instance, or any other value, which goes through [parse_time]; such a
    value is identified with the string that spells it. *)
Inductive time_like (Time : Type) : Type :=
| T_Time (t : Time)
| T_other (s : string).

Arguments T_other {Time} s.

(** The names the module binds at import, besides its functions. *)
Record Globals (F Time : Type) : Type := mkGlobals {
  _time_first_rotation : option Time;
  _lon_first_rotation : option F
}.

Section Utilities.
Context {F Time datetime EarthLocation : Type}.
Context {AR : Arith F} {AN : Angles F}.
Variable lib : Library F Time datetime EarthLocation.

Local Open Scope num_scope.
Local Open Scope string_scope.

Local Abbreviation Cart := (CartesianRepresentation F).
Local Abbreviation Coord := (SkyCoord F Time EarthLocation).
Local Abbreviation Frm := (Frame Time EarthLocation).
Local Abbreviation Glob := (Globals F Time).

(** A computation of the module: it reads the clock ([now], what
    [datetime.utcnow()] returns during the call) and the module-level names,
    returns a value or raises, and leaves the module-level names in some
    state. *)
Definition M (A : Type) : Type := datetime -> Glob -> result A * Glob.

Definition ret {A : Type} (a : A) : M A := fun _ g => (Ok a, g).

Definition bind {A B : Type} (m : M A) (k : A -> M B) : M B :=
  fun now g =>
    match m now g with
    | (Ok a, g') => k a now g'
    | (Raise e, g') => (Raise e, g')
    end.

Definition lift {A : Type} (r : result A) : M A := fun _ g => (r, g).

Definition utcnow : M datetime := fun now g => (Ok now, g).

(** Reading a module-level name. *)
Definition global {A : Type} (name : Glob -> option A) : M A :=
  fun _ g => match name g with
             | Some v => (Ok v, g)
             | None => (Raise NameError, g)
             end.

(** Binding a module-level name. *)
Definition assign (upd : Glob -> Glob) : M unit := fun _ g => (Ok tt, upd g).

Local Notation "x <- m ;; k" := (bind m (fun x => k))
  (at level 61, m at next level, right associativity).

(** Modelled from the spec: [sunpy.time.parse_time], the time normalizer,
    which is not part of this file's source.  The "now" sentinel stands for
    the current time; every other value is parsed, or rejected with a
    parsing error, by [parse_time_other]. *)
Definition parse_time (time : string) : M datetime :=
  if String.eqb time "now" then utcnow else lift (parse_time_other lib time).

Definition _astropy_time (time : time_like Time) : M Time :=
  match time with
  | T_Time t => ret t
  | T_other s => d <- parse_time s ;; lift (Time_of_datetime lib d)
  end.

(** Attribute access on a SkyCoord: [.lon], [.lat], [.radius] read the
    spherical representation of the data, [.cartesian] and
    [.data.to_cartesian()] the Cartesian one. *)
Definition represent_as_spherical (d : Representation F) : SphericalRepresentation F :=
  match d with
  | Spherical s => s
  | Cartesian c => cartesian_to_sph lib c
  end.

Definition to_cartesian (d : Representation F) : Cart :=
  match d with
  | Spherical s => sph_to_cartesian lib s
  | Cartesian c => c
  end.

Definition sc_lon (c : Coord) : F := sph_lon (represent_as_spherical (sc_data c)).
Definition sc_lat (c : Coord) : F := sph_lat (represent_as_spherical (sc_data c)).
Definition sc_radius (c : Coord) : F := sph_distance (represent_as_spherical (sc_data c)).

(** A frame class used as a frame: no attribute is given. *)
Definition frame_of_class (c : FrameClass) : Frm := mkFrame c None None None.

Definition get_earth (time : time_like Time) : M Coord :=
  obstime <- _astropy_time time ;;
  earth_icrs <- lift (get_body_barycentric_earth lib obstime) ;;
  earth <- lift (transform_to lib
                   (mkSkyCoord (mkFrame ICRS (Some obstime) None None) (Cartesian earth_icrs))
                   (frame_of_class HGS)) ;;
  (* Explicitly set the longitude to 0 *)
  ret (mkSkyCoord (sc_frame earth)
         (Spherical (mkSph (of_Z 0) (sc_lat earth) (sc_radius earth)))).

Definition get_sun_B0 (time : time_like Time) : M F :=
  earth <- get_earth time ;;
  ret (sc_lat earth).

(** The statements that the module runs at import, after the definition of
    [get_earth]: they bind [_time_first_rotation] and [_lon_first_rotation]. *)
Definition module_init : M unit :=
  t0 <- lift (Time_of_string lib "1853-11-09 21:36") ;;
  _ <- assign (fun g => mkGlobals (Some t0) (_lon_first_rotation g)) ;;
  t <- global (@_time_first_rotation F Time) ;;
  earth <- get_earth (T_Time t) ;;
  hcrs <- lift (transform_to lib earth (frame_of_class HCRS)) ;;
  assign (fun g => mkGlobals (_time_first_rotation g)
    (Some (sph_lon (cartesian_to_sph lib
             (cart_transform (to_cartesian (sc_data hcrs)) (_sun_detilt_matrix lib)))))).

(** The state of the module-level names before the import. *)
Definition unbound : Glob := mkGlobals None None.

Definition get_sun_L0 (time : time_like Time) : M F :=
  obstime <- _astropy_time time ;;
  (* the longitude due to the rotation of the Sun relative to the stars *)
  t0 <- global (@_time_first_rotation F Time) ;;
  let sidereal_lon :=
    Longitude ((jd lib obstime - jd lib t0) / (of_Z 2538 / of_Z 100) * of_Z 360) in
  (* the longitude of the Earth in de-tilted HCRS *)
  earth <- get_earth (T_Time obstime) ;;
  hcrs <- lift (transform_to lib earth (frame_of_class HCRS)) ;;
  let lon_obstime :=
    sph_lon (cartesian_to_sph lib
      (cart_transform (to_cartesian (sc_data hcrs)) (_sun_detilt_matrix lib))) in
  lon0 <- global (@_lon_first_rotation F Time) ;;
  ret (Longitude (lon_obstime - lon0 - sidereal_lon)).

Definition _sun_north_angle_to_z (frame : Frm) : M F :=
  (* the Sun center and Sun north in HGS at the observation time of the frame *)
  let sun_center := mkSkyCoord (mkFrame HGS (frame_obstime frame) None None)
                      (Spherical (mkSph (of_Z 0) (of_Z 0) (of_Z 0))) in
  let sun_north := mkSkyCoord (mkFrame HGS (frame_obstime frame) None None)
                     (Spherical (mkSph (of_Z 0) (of_Z 90) (of_Z 690000))) in
  (* the Sun center and Sun north in the coordinate system of the frame *)
  c <- lift (transform_to lib sun_center frame) ;;
  let sky_normal := to_cartesian (sc_data c) in
  n <- lift (transform_to lib sun_north frame) ;;
  let sun_north := to_cartesian (sc_data n) in
  (* the sky projections of the two vectors (rotated by 90 deg) *)
  let sun_north_in_sky := cross sun_north sky_normal in
  let z_in_sky := cross unit_z sky_normal in
  (* normalize the directional vectors *)
  let sky_normal := cart_div sky_normal (norm sky_normal) in
  let sun_north_in_sky := cart_div sun_north_in_sky (norm sun_north_in_sky) in
  let z_in_sky := cart_div z_in_sky (norm z_in_sky) in
  (* the signed angle between the two projected vectors *)
  let cos_theta := dot sun_north_in_sky z_in_sky in
  let sin_theta := dot (cross sun_north_in_sky z_in_sky) sky_normal in
  ret (rad_to_deg (arctan2 sin_theta cos_theta)).

Definition get_sun_P (time : time_like Time) : M F :=
  obstime <- _astropy_time time ;;
  let geocentric := mkFrame PrecessedGeocentric (Some obstime) (Some obstime) None in
  _sun_north_angle_to_z geocentric.

Definition get_sunearth_distance (time : time_like Time) : M F :=
  earth <- get_earth time ;;
  ret (sc_radius earth).

Definition get_sun_orientation (location : EarthLocation) (time : time_like Time) : M F :=
  obstime <- _astropy_time time ;;
  let local_frame := mkFrame AltAz (Some obstime) None (Some location) in
  _sun_north_angle_to_z local_frame.

End Utilities.

(** ** The two scalar types *)

(** *** Real numbers *)

(** [np.arctan2(y, x)] on the reals: the angle of the point [(x, y)], in
    radians, in (-pi, pi].  The reals have one zero: at [y = 0], [x < 0]
    this is [pi], where binary64 returns [pi] or [-pi] by the sign of the
    zero (see [arctan2_at_zero]); what is stated of the module with it is
    stated for the closed range. *)
Definition R_arctan2 (y x : R) : R :=
  if Rlt_dec 0 x then atan (y / x)
  else if Rlt_dec x 0 then
    if Rle_dec 0 y then (atan (y / x) + PI)%R else (atan (y / x) - PI)%R
  else if Rlt_dec 0 y then (PI / 2)%R
  else if Rlt_dec y 0 then (- (PI / 2))%R
  else 0%R.

(** The wrapping of [Longitude]: the angle modulo 360 degrees. *)
Definition R_wrap_360 (a : R) : R := (a - 360 * IZR (Int_part (a / 360)))%R.

#[export] Instance R_Arith : Arith R := {
  of_Z := IZR;
  nadd := Rplus;
  nsub := Rminus;
  nmul := Rmult;
  ndiv := Rdiv;
  nsqrt := R_sqrt.sqrt
}.

#[export] Instance R_Angles : Angles R := {
  arctan2 := R_arctan2;
  rad_to_deg := fun a => (a * 180 / PI)%R;
  Longitude := R_wrap_360
}.

(** *** binary64 floats *)

Definition float_of_Z (n : Z) : float :=
  match n with
  | Z0 => 0%float
  | Zpos _ => PrimFloat.of_uint63 (Uint63.of_Z n)
  | Zneg p => PrimFloat.opp (PrimFloat.of_uint63 (Uint63.of_Z (Zpos p)))
  end.

#[export] Instance float_Arith : Arith float := {
  of_Z := float_of_Z;
  nadd := PrimFloat.add;
  nsub := PrimFloat.sub;
  nmul := PrimFloat.mul;
  ndiv := PrimFloat.div;
  nsqrt := PrimFloat.sqrt
}.

Definition null_vector : CartesianRepresentation R := mkCart 0%R 0%R 0%R.

Definition nan_vector : CartesianRepresentation float := mkCart nan nan nan.

(** The binary64 number next to pi, [np.pi]. *)
Definition float_pi : float := 0x1.921fb54442d18p+1%float.

(** [np.arctan2(y, x)] on binary64 where IEEE 754 fixes its value whatever
    the implementation: a NaN argument gives NaN; a zero [y] gives that
    zero for a positive [x] (the sign bit of [x] clear) and pi with the
    sign of the zero for a negative [x].  Other arguments are left open. *)
Definition arctan2_at_zero (y x : float) : option float :=
  if PrimFloat.is_nan y || PrimFloat.is_nan x then Some nan
  else if PrimFloat.is_zero y then
    if PrimFloat.get_sign x
    then Some (if PrimFloat.get_sign y then PrimFloat.opp float_pi else float_pi)
    else Some y
  else None.

(** The angles of numpy and astropy on binary64, as far as they are fixed:
    the arctangent at the arguments above, and the conversion to degrees
    as the product with 180/pi. *)
Definition ieee_angles (AN : Angles float) : Prop :=
  (forall y x v, arctan2_at_zero y x = Some v -> arctan2 y x = v) /\
  (forall a, rad_to_deg a = PrimFloat.mul a (PrimFloat.div (float_of_Z 180) float_pi)).

(** A float vector whose three components are zeros (of either sign). *)
Definition is_zero_vector (v : CartesianRepresentation float) : bool :=
  PrimFloat.eqb (cart_x v) 0 && PrimFloat.eqb (cart_y v) 0 && PrimFloat.eqb (cart_z v) 0.

(** ** A small instance of the collaborators

    Times and datetimes are whole days counted from the start of Carrington
    rotation 1, and the only string the parser knows is that date.  The
    Earth moves on a circle of radius 1 in four steps.  A transformation
    keeps the data, except towards the two observer frames: seen from a
    precessed geocentric frame the Sun center is on the x axis and solar
    latitude goes to the z axis; seen from a horizontal frame the solar
    axis is along the line of sight. *)
Module Mock.
Section Mock.
Context {F : Type} {AR : Arith F}.

Local Open Scope num_scope.
Local Open Scope string_scope.

Definition epoch : string := "1853-11-09 21:36".

Definition parse (s : string) : result Z :=
  if String.eqb s epoch then Ok 0%Z else Raise TimeParsingError.

Definition earth_position (t : Z) : CartesianRepresentation F :=
  match (t mod 4)%Z with
  | 0%Z => mkCart (of_Z 1) (of_Z 0) (of_Z 0)
  | 1%Z => mkCart (of_Z 0) (of_Z 1) (of_Z 0)
  | 2%Z => mkCart (of_Z (-1)) (of_Z 0) (of_Z 0)
  | _ => mkCart (of_Z 0) (of_Z (-1)) (of_Z 0)
  end.

Definition merge (a b : option Z) : option Z :=
  match a with Some _ => a | None => b end.

Definition transform (c : SkyCoord F Z unit) (f : Frame Z unit) :
  result (SkyCoord F Z unit) :=
  let f' := mkFrame (frame_class f) (merge (frame_obstime f) (frame_obstime (sc_frame c)))
              (frame_equinox f) (frame_location f) in
  match frame_class f, sc_data c with
  | PrecessedGeocentric, Spherical s =>
      Ok (mkSkyCoord f' (Cartesian (mkCart (of_Z 1) (of_Z 0) (sph_lat s / of_Z 90))))
  | AltAz, Spherical s =>
      Ok (mkSkyCoord f' (Cartesian (mkCart (of_Z 1 + sph_lat s / of_Z 90) (of_Z 0) (of_Z 0))))
  | _, d => Ok (mkSkyCoord f' d)
  end.

Definition library : Library F Z Z unit := {|
  parse_time_other := parse;
  Time_of_datetime := fun d => Ok d;
  Time_of_string := parse;
  jd := fun t => of_Z t;
  get_body_barycentric_earth := fun t => Ok (earth_position t);
  transform_to := transform;
  sph_to_cartesian := fun s => mkCart (sph_distance s) (sph_lon s) (sph_lat s);
  cartesian_to_sph := fun c => mkSph (cart_y c) (cart_z c) (cart_x c);
  _sun_detilt_matrix := mkMatrix (mkCart (of_Z 1) (of_Z 0) (of_Z 0))
                                 (mkCart (of_Z 0) (of_Z 1) (of_Z 0))
                                 (mkCart (of_Z 0) (of_Z 0) (of_Z 1))
|}.

(** The same collaborators for an observer who has the Sun at the zenith:
    in the horizontal frame the Sun center is on the z axis and solar
    latitude goes to the y axis. *)
Definition transform_zenith (c : SkyCoord F Z unit) (f : Frame Z unit) :
  result (SkyCoord F Z unit) :=
  let f' := mkFrame (frame_class f) (merge (frame_obstime f) (frame_obstime (sc_frame c)))
              (frame_equinox f) (frame_location f) in
  match frame_class f, sc_data c with
  | AltAz, Spherical s =>
      Ok (mkSkyCoord f' (Cartesian (mkCart (of_Z 0) (sph_lat s / of_Z 90) (of_Z 1))))
  | _, _ => transform c f
  end.

Definition zenith_library : Library F Z Z unit := {|
  parse_time_other := parse;
  Time_of_datetime := fun d => Ok d;
  Time_of_string := parse;
  jd := fun t => of_Z t;
  get_body_barycentric_earth := fun t => Ok (earth_position t);
  transform_to := transform_zenith;
  sph_to_cartesian := fun s => mkCart (sph_distance s) (sph_lon s) (sph_lat s);
  cartesian_to_sph := fun c => mkSph (cart_y c) (cart_z c) (cart_x c);
  _sun_detilt_matrix := mkMatrix (mkCart (of_Z 1) (of_Z 0) (of_Z 0))
                                 (mkCart (of_Z 0) (of_Z 1) (of_Z 0))
                                 (mkCart (of_Z 0) (of_Z 0) (of_Z 1))
|}.

(** The same collaborators with an ephemeris that starts at the epoch:
    before it the ephemeris fails, and so does a transformation to a frame
    observed then. *)
Definition bounded_library : Library F Z Z unit := {|
  parse_time_other := parse;
  Time_of_datetime := fun d => Ok d;
  Time_of_string := parse;
  jd := fun t => of_Z t;
  get_body_barycentric_earth :=
    fun t => if (t <? 0)%Z then Raise EphemerisError else Ok (earth_position t);
  transform_to :=
    fun c f => match frame_obstime f with
               | Some t => if (t <? 0)%Z then Raise FrameTransformError else transform c f
               | None => transform c f
               end;
  sph_to_cartesian := fun s => mkCart (sph_distance s) (sph_lon s) (sph_lat s);
  cartesian_to_sph := fun c => mkSph (cart_y c) (cart_z c) (cart_x c);
  _sun_detilt_matrix := mkMatrix (mkCart (of_Z 1) (of_Z 0) (of_Z 0))
                                 (mkCart (of_Z 0) (of_Z 1) (of_Z 0))
                                 (mkCart (of_Z 0) (of_Z 0) (of_Z 1))
|}.

(** The same collaborators for an observer who sees the Sun center at
    [center] and the point of the solar north axis at [north]: a point at
    solar latitude [lat] goes to [center + lat/90 (north - center)] in the
    two observer frames. *)
Definition transform_observer (center north : CartesianRepresentation F)
    (c : SkyCoord F Z unit) (f : Frame Z unit) : result (SkyCoord F Z unit) :=
  let f' := mkFrame (frame_class f) (merge (frame_obstime f) (frame_obstime (sc_frame c)))
              (frame_equinox f) (frame_location f) in
  let along (a b : F) (s : SphericalRepresentation F) := a + sph_lat s / of_Z 90 * (b - a) in
  match frame_class f, sc_data c with
  | PrecessedGeocentric, Spherical s
  | AltAz, Spherical s =>
      Ok (mkSkyCoord f'
            (Cartesian (mkCart (along (cart_x center) (cart_x north) s)
                               (along (cart_y center) (cart_y north) s)
                               (along (cart_z center) (cart_z north) s))))
  | _, _ => transform c f
  end.

Definition observer_library (center north : CartesianRepresentation F) :
  Library F Z Z unit := {|
  parse_time_other := parse;
  Time_of_datetime := fun d => Ok d;
  Time_of_string := parse;
  jd := fun t => of_Z t;
  get_body_barycentric_earth := fun t => Ok (earth_position t);
  transform_to := transform_observer center north;
  sph_to_cartesian := fun s => mkCart (sph_distance s) (sph_lon s) (sph_lat s);
  cartesian_to_sph := fun c => mkSph (cart_y c) (cart_z c) (cart_x c);
  _sun_detilt_matrix := mkMatrix (mkCart (of_Z 1) (of_Z 0) (of_Z 0))
                                 (mkCart (of_Z 0) (of_Z 1) (of_Z 0))
                                 (mkCart (of_Z 0) (of_Z 0) (of_Z 1))
|}.

(** The module-level names after the import with this library. *)
Definition globals {AN : Angles F} : Globals F Z :=
  snd (module_init library 0%Z (unbound (F:=F) (Time:=Z))).

(** The geocentric and the local frame of the module at a time. *)
Definition geocentric (t : Z) : Frame Z unit :=
  mkFrame PrecessedGeocentric (Some t) (Some t) None.

Definition local_frame (t : Z) : Frame Z unit :=
  mkFrame AltAz (Some t) None (Some tt).

End Mock.

(** Angles on floats, as far as they are needed to run the module on this
    instance: the quotient stands for the arctangent, and nothing is
    wrapped. *)
Definition float_angles : Angles float := {|
  arctan2 := fun y x => PrimFloat.div y x;
  rad_to_deg := fun a => PrimFloat.mul a (float_of_Z 57);
  Longitude := fun a => a
|}.

(** Angles on floats that are numpy's where IEEE 754 fixes them: the
    arctangent of [arctan2_at_zero] (elsewhere the quotient stands for it)
    and the conversion to degrees of astropy, the product with 180/pi. *)
Definition float_angles_at_zero : Angles float := {|
  arctan2 := fun y x => match arctan2_at_zero y x with
                        | Some v => v
                        | None => PrimFloat.div y x
                        end;
  rad_to_deg := fun a => PrimFloat.mul a (PrimFloat.div (float_of_Z 180) float_pi);
  Longitude := fun a => a
|}.

End Mock.

(** ** The quantities of the specification *)

Section Specification.
Context {F Time datetime EarthLocation : Type}.
Context {AR : Arith F} {AN : Angles F}.
Variable lib : Library F Time datetime EarthLocation.

Local Open Scope num_scope.

Definition wrap_to_360 (a : F) : F := Longitude a.

(** The rotation of the Sun relative to the stars since the reference
    epoch, one turn per 25.38 days. *)
Definition sidereal_component (days_elapsed : F) : F :=
  wrap_to_360 (days_elapsed / (of_Z 2538 / of_Z 100) * of_Z 360).

(** The longitude of a position given in HCRS, once the frame is de-tilted
    so that the solar north pole is its Z axis. *)
Definition detilted_longitude (hcrs : SkyCoord F Time EarthLocation) : F :=
  sph_lon (cartesian_to_sph lib
    (cart_transform (to_cartesian lib (sc_data hcrs)) (_sun_detilt_matrix lib))).

Definition geometric_component (lon reference_lon : F) : F := lon - reference_lon.

Definition normalized (v : CartesianRepresentation F) : CartesianRepresentation F :=
  cart_div v (norm v).

(** The signed angle from the Z axis of a frame to solar north, both
    projected on the sky, given the Sun center and a point of the solar
    north axis in that frame. *)
Definition signed_angle (sky_normal solar_north : CartesianRepresentation F) : F :=
  let projected_north := normalized (cross solar_north sky_normal) in
  let projected_Z := normalized (cross unit_z sky_normal) in
  let cos_theta := dot projected_north projected_Z in
  let sin_theta := dot (cross projected_north projected_Z) (normalized sky_normal) in
  rad_to_deg (arctan2 sin_theta cos_theta).

(** The two points that the helper transforms into a frame. *)
Definition hgs_sun_center (obstime : option Time) : SkyCoord F Time EarthLocation :=
  mkSkyCoord (mkFrame HGS obstime None None) (Spherical (mkSph (of_Z 0) (of_Z 0) (of_Z 0))).

Definition hgs_sun_north (obstime : option Time) : SkyCoord F Time EarthLocation :=
  mkSkyCoord (mkFrame HGS obstime None None)
    (Spherical (mkSph (of_Z 0) (of_Z 90) (of_Z 690000))).

(** A computation that leaves the module-level names as they are. *)
Definition preserves_globals {A : Type} (m : @M F Time datetime A) : Prop :=
  forall now g, snd (m now g) = g.

(** A computation whose outcome does not depend on the clock. *)
Definition clock_independent {A : Type} (m : @M F Time datetime A) : Prop :=
  forall now1 now2 g, m now1 g = m now2 g.



(** A computation whose outcome does not depend on the module-level
    names. *)
Definition globals_independent {A : Type} (m : @M F Time datetime A) : Prop :=
  forall now g1 g2, fst (m now g1) = fst (m now g2).

End Specification.

(** ** Properties that hold for every scalar type and every library *)

Section Facts.
Context {F Time datetime EarthLocation : Type}.
Context {AR : Arith F} {AN : Angles F}.
Variable lib : Library F Time datetime EarthLocation.

Local Open Scope num_scope.
Local Open Scope string_scope.

Local Abbreviation Comp := (@M F Time datetime).

(** *** The module-level names are only read *)

Lemma preserves_ret (A : Type) (a : A) : preserves_globals (ret a : Comp A).
Proof. intros now g. reflexivity. Qed.

Lemma preserves_lift (A : Type) (r : result A) : preserves_globals (lift r : Comp A).
Proof. intros now g. reflexivity. Qed.

Lemma preserves_utcnow : preserves_globals (utcnow : Comp datetime).
Proof. intros now g. reflexivity. Qed.

Lemma preserves_global (A : Type) (name : Globals F Time -> option A) :
  preserves_globals (global name : Comp A).
Proof. intros now g. unfold global. destruct (name g); reflexivity. Qed.

Lemma preserves_bind (A B : Type) (m : Comp A) (k : A -> Comp B) :
  preserves_globals m -> (forall a, preserves_globals (k a)) ->
  preserves_globals (bind m k).
Proof.
  intros Hm Hk now g. unfold bind.
  specialize (Hm now g). destruct (m now g) as [[a | e] g']; simpl in Hm; subst g'.
  - apply Hk.
  - reflexivity.
Qed.

Lemma preserves_parse_time (s : string) : preserves_globals (parse_time lib s).
Proof.
  unfold parse_time. destruct (String.eqb s "now").
  - apply preserves_utcnow.
  - apply preserves_lift.
Qed.

Lemma preserves_astropy_time (time : time_like Time) :
  preserves_globals (_astropy_time lib time).
Proof.
  destruct time as [t | s]; simpl.
  - apply preserves_ret.
  - apply preserves_bind; intros; [apply preserves_parse_time | apply preserves_lift].
Qed.

Ltac preserves_step :=
  first [ apply preserves_ret | apply preserves_lift | apply preserves_global
        | apply preserves_astropy_time
        | apply preserves_bind; [ | intros ] ].

Lemma preserves_get_earth (time : time_like Time) :
  preserves_globals (get_earth lib time).
Proof. unfold get_earth. repeat preserves_step. Qed.

Lemma preserves_angle_helper (frame : Frame Time EarthLocation) :
  preserves_globals (_sun_north_angle_to_z lib frame).
Proof. unfold _sun_north_angle_to_z. cbv zeta. repeat preserves_step. Qed.

Lemma preserves_get_sun_L0 (time : time_like Time) :
  preserves_globals (get_sun_L0 lib time).
Proof.
  unfold get_sun_L0. cbv zeta.
  repeat first [ apply preserves_get_earth | preserves_step ].
Qed.

Lemma preserves_get_sun_B0 (time : time_like Time) :
  preserves_globals (get_sun_B0 lib time).
Proof. unfold get_sun_B0. repeat first [ apply preserves_get_earth | preserves_step ]. Qed.

Lemma preserves_get_sunearth_distance (time : time_like Time) :
  preserves_globals (get_sunearth_distance lib time).
Proof.
  unfold get_sunearth_distance. repeat first [ apply preserves_get_earth | preserves_step ].
Qed.

Lemma preserves_get_sun_P (time : time_like Time) :
  preserves_globals (get_sun_P lib time).
Proof.
  unfold get_sun_P. cbv zeta. repeat first [ apply preserves_angle_helper | preserves_step ].
Qed.

Lemma preserves_get_sun_orientation (location : EarthLocation) (time : time_like Time) :
  preserves_globals (get_sun_orientation lib location time).
Proof.
  unfold get_sun_orientation. cbv zeta.
  repeat first [ apply preserves_angle_helper | preserves_step ].
Qed.

(** *** The clock is read for the "now" sentinel only *)

Lemma independent_ret (A : Type) (a : A) : clock_independent (ret a : Comp A).
Proof. intros now1 now2 g. reflexivity. Qed.

Lemma independent_lift (A : Type) (r : result A) : clock_independent (lift r : Comp A).
Proof. intros now1 now2 g. reflexivity. Qed.

Lemma independent_global (A : Type) (name : Globals F Time -> option A) :
  clock_independent (global name : Comp A).
Proof. intros now1 now2 g. reflexivity. Qed.

Lemma independent_bind (A B : Type) (m : Comp A) (k : A -> Comp B) :
  clock_independent m -> (forall a, clock_independent (k a)) ->
  clock_independent (bind m k).
Proof.
  intros Hm Hk now1 now2 g. unfold bind. rewrite (Hm now1 now2 g).
  destruct (m now2 g) as [[a | e] g']; [apply Hk | reflexivity].
Qed.

Lemma independent_astropy_time (time : time_like Time) :
  time <> T_other "now" -> clock_independent (_astropy_time lib time).
Proof.
  destruct time as [t | s]; simpl; intros Hnow.
  - apply independent_ret.
  - apply independent_bind; intros; [ | apply independent_lift ].
    unfold parse_time. destruct (String.eqb s "now") eqn:E.
    + apply String.eqb_eq in E. subst s. contradiction.
    + apply independent_lift.
Qed.

Lemma T_Time_not_now (t : Time) : T_Time t <> T_other "now".
Proof. discriminate. Qed.

Ltac independent_step :=
  first [ apply independent_ret | apply independent_lift | apply independent_global
        | apply independent_astropy_time; first [ assumption | apply T_Time_not_now ]
        | apply independent_bind; [ | intros ] ].

Lemma independent_get_earth (time : time_like Time) :
  time <> T_other "now" -> clock_independent (get_earth lib time).
Proof. intros Hnow. unfold get_earth. repeat independent_step. Qed.

Lemma independent_angle_helper (frame : Frame Time EarthLocation) :
  clock_independent (_sun_north_angle_to_z lib frame).
Proof. unfold _sun_north_angle_to_z. cbv zeta. repeat independent_step. Qed.

Lemma independent_get_sun_L0 (time : time_like Time) :
  time <> T_other "now" -> clock_independent (get_sun_L0 lib time).
Proof.
  intros Hnow. unfold get_sun_L0. cbv zeta.
  repeat first [ apply independent_get_earth; apply T_Time_not_now | independent_step ].
Qed.

Lemma independent_get_sun_B0 (time : time_like Time) :
  time <> T_other "now" -> clock_independent (get_sun_B0 lib time).
Proof.
  intros Hnow. unfold get_sun_B0.
  repeat first [ apply independent_get_earth; assumption | independent_step ].
Qed.

Lemma independent_get_sunearth_distance (time : time_like Time) :
  time <> T_other "now" -> clock_independent (get_sunearth_distance lib time).
Proof.
  intros Hnow. unfold get_sunearth_distance.
  repeat first [ apply independent_get_earth; assumption | independent_step ].
Qed.

Lemma independent_get_sun_P (time : time_like Time) :
  time <> T_other "now" -> clock_independent (get_sun_P lib time).
Proof.
  intros Hnow. unfold get_sun_P. cbv zeta.
  repeat first [ apply independent_angle_helper | independent_step ].
Qed.

Lemma independent_get_sun_orientation (location : EarthLocation) (time : time_like Time) :
  time <> T_other "now" -> clock_independent (get_sun_orientation lib location time).
Proof.
  intros Hnow. unfold get_sun_orientation. cbv zeta.
  repeat first [ apply independent_angle_helper | independent_step ].
Qed.

End Facts.

(** ** The public functions *)

Section PublicFunctions.
Context {F Time datetime EarthLocation : Type}.
Context {AR : Arith F} {AN : Angles F}.
Variable lib : Library F Time datetime EarthLocation.

Local Open Scope num_scope.
Local Open Scope string_scope.

(** What [get_earth] returns once its three steps succeed. *)
Lemma get_earth_run (time : time_like Time) now g obstime earth_icrs earth :
  _astropy_time lib time now g = (Ok obstime, g) ->
  get_body_barycentric_earth lib obstime = Ok earth_icrs ->
  transform_to lib
    (mkSkyCoord (mkFrame ICRS (Some obstime) None None) (Cartesian earth_icrs))
    (frame_of_class HGS) = Ok earth ->
  get_earth lib time now g =
    (Ok (mkSkyCoord (sc_frame earth)
           (Spherical (mkSph (of_Z 0) (sc_lat lib earth) (sc_radius lib earth)))), g).
Proof.
  intros Ht Hb Hx. unfold get_earth, bind, lift, ret.
  rewrite Ht, Hb, Hx. reflexivity.
Qed.

(** The state of the module-level names after a successful import. *)
Lemma module_init_inv now0 g :
  module_init lib now0 unbound = (Ok tt, g) ->
  exists t0 earth0 hcrs0,
    Time_of_string lib "1853-11-09 21:36" = Ok t0 /\
    (forall now g', get_earth lib (T_Time t0) now g' = (Ok earth0, g')) /\
    transform_to lib earth0 (frame_of_class HCRS) = Ok hcrs0 /\
    g = mkGlobals (Some t0) (Some (detilted_longitude lib hcrs0)).
Proof.
  unfold module_init, bind, lift, assign, global, unbound. simpl.
  destruct (Time_of_string lib "1853-11-09 21:36") as [t0 | e]; [ | discriminate ].
  simpl. unfold get_earth, bind, lift, ret. simpl.
  destruct (get_body_barycentric_earth lib t0) as [icrs | e] eqn:Hb; [ | discriminate ].
  destruct (transform_to lib _ (frame_of_class HGS)) as [earth | e] eqn:He;
    [ | discriminate ].
  destruct (transform_to lib _ (frame_of_class HCRS)) as [hcrs | e] eqn:Hh;
    [ | discriminate ].
  intros H. injection H as <-.
  exists t0, (mkSkyCoord (sc_frame earth)
               (Spherical (mkSph (of_Z 0) (sc_lat lib earth) (sc_radius lib earth)))), hcrs.
  repeat split; try assumption.
  intros now g'. unfold get_earth, bind, lift, ret. simpl.
  rewrite Hb, He. reflexivity.
Qed.

(** What the signed-angle helper returns once its two transformations
    succeed. *)
Lemma sun_north_angle_to_z_run (frame : Frame Time EarthLocation) now g c n :
  transform_to lib (hgs_sun_center (frame_obstime frame)) frame = Ok c ->
  transform_to lib (hgs_sun_north (frame_obstime frame)) frame = Ok n ->
  _sun_north_angle_to_z lib frame now g =
    (Ok (signed_angle (to_cartesian lib (sc_data c)) (to_cartesian lib (sc_data n))), g).
Proof.
  intros Hc Hn. unfold _sun_north_angle_to_z, bind, lift, ret.
  unfold hgs_sun_center, hgs_sun_north in *. rewrite Hc, Hn. reflexivity.
Qed.

(** C10: [_astropy_time] hands a [Time] instance back as it is: the result
    is that very instance whatever the parser, the [Time] constructor and
    the clock are, so nothing is parsed or validated again.  Any other
    input goes through [parse_time], whose error is the error of the call,
    and then through the [Time] constructor. *)
Theorem astropy_time_passthrough :
  (forall (lib' : Library F Time datetime EarthLocation) (t : Time) now now' g,
      _astropy_time lib (T_Time t) now g = (Ok t, g) /\
      _astropy_time lib (T_Time t) now g = _astropy_time lib' (T_Time t) now' g) /\
  (forall (s : string) now g,
      _astropy_time lib (T_other s) now g =
      match parse_time lib s now g with
      | (Ok d, g') => (Time_of_datetime lib d, g')
      | (Raise e, g') => (Raise e, g')
      end).
Proof.
  split.
  - intros lib' t now now' g. split; reflexivity.
  - intros s now g. reflexivity.
Qed.

(** C3: when the time is valid (the time normalizer, the ephemeris and the
    transformation to HGS succeed), [get_earth] returns a position whose
    longitude is exactly zero and whose latitude and radius are those of
    the HGS transform of the barycentric position of the Earth. *)
Theorem get_earth_longitude_zero (time : time_like Time) now g obstime earth_icrs earth :
  _astropy_time lib time now g = (Ok obstime, g) ->
  get_body_barycentric_earth lib obstime = Ok earth_icrs ->
  transform_to lib
    (mkSkyCoord (mkFrame ICRS (Some obstime) None None) (Cartesian earth_icrs))
    (frame_of_class HGS) = Ok earth ->
  exists out,
    get_earth lib time now g = (Ok out, g) /\
    sc_lon lib out = of_Z 0 /\
    sc_lat lib out = sc_lat lib earth /\
    sc_radius lib out = sc_radius lib earth /\
    sc_frame out = sc_frame earth.
Proof.
  intros Ht Hb Hx. eexists. split.
  - eapply get_earth_run; eassumption.
  - repeat split.
Qed.

(** C6: [get_sun_B0] is the latitude of what [get_earth] returns. *)
Theorem get_sun_B0_is_earth_latitude (time : time_like Time) now g earth g' :
  get_earth lib time now g = (Ok earth, g') ->
  get_sun_B0 lib time now g = (Ok (sc_lat lib earth), g').
Proof.
  intros He. unfold get_sun_B0, bind, ret. rewrite He. reflexivity.
Qed.

(** C7: [get_sunearth_distance] is the radius of what [get_earth] returns. *)
Theorem get_sunearth_distance_is_earth_radius (time : time_like Time) now g earth g' :
  get_earth lib time now g = (Ok earth, g') ->
  get_sunearth_distance lib time now g = (Ok (sc_radius lib earth), g').
Proof.
  intros He. unfold get_sunearth_distance, bind, ret. rewrite He. reflexivity.
Qed.

(** C1: after the import, and for a valid time, [get_sun_L0] is the
    geometric component minus the sidereal component, wrapped to
    [0, 360): the sidereal component counts the days from
    [Time('1853-11-09 21:36')] at one turn per 25.38 days, and the geometric
    component is the de-tilted HCRS longitude of [get_earth] at the time
    minus that longitude at the epoch. *)
Theorem get_sun_L0_formula now0 g (time : time_like Time) now obstime earth hcrs :
  module_init lib now0 unbound = (Ok tt, g) ->
  _astropy_time lib time now g = (Ok obstime, g) ->
  get_earth lib (T_Time obstime) now g = (Ok earth, g) ->
  transform_to lib earth (frame_of_class HCRS) = Ok hcrs ->
  exists epoch earth0 hcrs0,
    Time_of_string lib "1853-11-09 21:36" = Ok epoch /\
    get_earth lib (T_Time epoch) now g = (Ok earth0, g) /\
    transform_to lib earth0 (frame_of_class HCRS) = Ok hcrs0 /\
    get_sun_L0 lib time now g =
      (Ok (wrap_to_360
             (geometric_component (detilted_longitude lib hcrs)
                                  (detilted_longitude lib hcrs0)
              - sidereal_component (jd lib obstime - jd lib epoch))), g).
Proof.
  intros Hinit Ht He Hh.
  apply module_init_inv in Hinit.
  destruct Hinit as (t0 & earth0 & hcrs0 & Hs & He0 & Hh0 & ->).
  exists t0, earth0, hcrs0. repeat split; auto.
  unfold get_sun_L0, bind, lift, ret, global. rewrite Ht. simpl.
  rewrite He, Hh. reflexivity.
Qed.

(** C9, amended: no public function changes the module-level names,
    whatever the time argument is; and for a time argument other than the
    "now" sentinel the outcome of a call is the same at every reading of
    the clock: two calls with the same arguments return the same result. *)
Theorem public_functions_deterministic (time : time_like Time) (location : EarthLocation)
    now1 now2 g :
  (snd (get_earth lib time now1 g) = g /\
   snd (get_sun_B0 lib time now1 g) = g /\
   snd (get_sun_L0 lib time now1 g) = g /\
   snd (get_sun_P lib time now1 g) = g /\
   snd (get_sunearth_distance lib time now1 g) = g /\
   snd (get_sun_orientation lib location time now1 g) = g) /\
  (time <> T_other "now" ->
   get_earth lib time now1 g = get_earth lib time now2 g /\
   get_sun_B0 lib time now1 g = get_sun_B0 lib time now2 g /\
   get_sun_L0 lib time now1 g = get_sun_L0 lib time now2 g /\
   get_sun_P lib time now1 g = get_sun_P lib time now2 g /\
   get_sunearth_distance lib time now1 g = get_sunearth_distance lib time now2 g /\
   get_sun_orientation lib location time now1 g =
     get_sun_orientation lib location time now2 g).
Proof.
  split.
  - repeat split.
    + apply preserves_get_earth.
    + apply preserves_get_sun_B0.
    + apply preserves_get_sun_L0.
    + apply preserves_get_sun_P.
    + apply preserves_get_sunearth_distance.
    + apply preserves_get_sun_orientation.
  - intros Hnow. repeat split.
    + apply independent_get_earth; assumption.
    + apply independent_get_sun_B0; assumption.
    + apply independent_get_sun_L0; assumption.
    + apply independent_get_sun_P; assumption.
    + apply independent_get_sunearth_distance; assumption.
    + apply independent_get_sun_orientation; assumption.
Qed.

End PublicFunctions.

(** ** Angles over the real numbers *)

Section RealAngles.
Local Open Scope R_scope.

Lemma R_wrap_360_range (a : R) : 0 <= R_wrap_360 a < 360.
Proof.
  unfold R_wrap_360.
  destruct (base_Int_part (a / 360)) as [Hlo Hhi].
  assert (Ha : a = 360 * (a / 360)) by field.
  set (k := IZR (Int_part (a / 360))) in *.
  set (q := a / 360) in *.
  lra.
Qed.

Lemma R_wrap_360_fixed (a : R) : 0 <= a < 360 -> R_wrap_360 a = a.
Proof.
  intros Ha. unfold R_wrap_360.
  replace (Int_part (a / 360)) with 0%Z.
  - lra.
  - apply Int_part_spec. simpl. lra.
Qed.

Lemma R_arctan2_range (y x : R) : - PI < R_arctan2 y x <= PI.
Proof.
  pose proof PI_RGT_0 as Hpi.
  pose proof (atan_bound (y / x)) as Hb.
  unfold R_arctan2.
  destruct (Rlt_dec 0 x) as [Hx | Hx]; [ lra | ].
  destruct (Rlt_dec x 0) as [Hx' | Hx'].
  - assert (Hinv : / x < 0) by (apply Rinv_lt_0_compat; assumption).
    destruct (Rle_dec 0 y) as [Hy | Hy].
    + assert (Hq : y / x <= 0) by (unfold Rdiv; nra).
      assert (Ha : atan (y / x) <= 0).
      { destruct Hq as [Hq | Hq].
        - left. rewrite <- atan_0. apply atan_increasing. assumption.
        - rewrite Hq, atan_0. lra. }
      lra.
    + assert (Hq : 0 < y / x) by (unfold Rdiv; nra).
      assert (Ha : 0 < atan (y / x)).
      { rewrite <- atan_0. apply atan_increasing. assumption. }
      lra.
  - destruct (Rlt_dec 0 y); [ lra | ].
    destruct (Rlt_dec y 0); lra.
Qed.

Lemma rad_to_deg_range (a : R) : - PI < a <= PI -> -180 < a * 180 / PI <= 180.
Proof.
  intros Ha. pose proof PI_RGT_0 as Hpi.
  assert (Hinv : 0 < / PI) by (apply Rinv_0_lt_compat; assumption).
  assert (H1 : PI * / PI = 1) by (field; lra).
  unfold Rdiv.
  assert (Hq : -1 < a * / PI <= 1) by nra.
  lra.
Qed.

(** A vector of reals that is not the null vector has a positive norm, and
    dividing it by its norm gives a vector of norm 1. *)
Lemma norm_nonzero (v : CartesianRepresentation R) :
  v <> null_vector -> norm v <> 0.
Proof.
  intros Hv Hn. apply Hv. destruct v as [a b c]. unfold norm in Hn. simpl in Hn.
  apply sqrt_eq_0 in Hn; [ | nra ].
  assert (a = 0) by nra. assert (b = 0) by nra. assert (c = 0) by nra.
  subst. reflexivity.
Qed.

Lemma norm_normalized (v : CartesianRepresentation R) :
  v <> null_vector -> norm (normalized v) = 1.
Proof.
  intros Hv. pose proof (norm_nonzero Hv) as Hn.
  destruct v as [a b c]. unfold normalized, cart_div, norm in *. simpl in *.
  set (s := a * a + b * b + c * c) in *.
  assert (Hs : 0 <= s) by (unfold s; nra).
  pose proof (sqrt_sqrt s Hs) as Hsq.
  set (n := R_sqrt.sqrt s) in *.
  replace (a / n * (a / n) + b / n * (b / n) + c / n * (c / n))
    with (s / (n * n)) by (unfold s; field; assumption).
  rewrite Hsq. unfold Rdiv. rewrite Rinv_r.
  - apply sqrt_1.
  - intros H0. apply Hn. unfold n. rewrite H0. apply sqrt_0.
Qed.

End RealAngles.

(** ** Floats at a zero divisor *)

Section FloatNaN.
Local Open Scope float_scope.

Lemma float_zero_cases (a : float) : PrimFloat.eqb a 0 = true -> a = 0 \/ a = -0.
Proof.
  intros H. rewrite FloatAxioms.eqb_spec in H.
  rewrite <- (SF2Prim_Prim2SF a).
  destruct (Prim2SF a) as [s | s | | s m e].
  - destruct s; [right | left]; reflexivity.
  - destruct s; discriminate.
  - discriminate.
  - destruct s; discriminate.
Qed.

Lemma mul_nan_l (a : float) : nan * a = nan.
Proof. apply Prim2SF_inj. rewrite FloatAxioms.mul_spec. reflexivity. Qed.

Lemma mul_nan_r (a : float) : a * nan = nan.
Proof.
  apply Prim2SF_inj. rewrite FloatAxioms.mul_spec. destruct (Prim2SF a); reflexivity.
Qed.

Lemma add_nan_l (a : float) : nan + a = nan.
Proof. apply Prim2SF_inj. rewrite FloatAxioms.add_spec. reflexivity. Qed.

Lemma add_nan_r (a : float) : a + nan = nan.
Proof.
  apply Prim2SF_inj. rewrite FloatAxioms.add_spec. destruct (Prim2SF a); reflexivity.
Qed.

Lemma sub_nan_l (a : float) : nan - a = nan.
Proof. apply Prim2SF_inj. rewrite FloatAxioms.sub_spec. reflexivity. Qed.

(** Dividing a vector of zeros by its norm divides zero by zero. *)
Lemma norm_zero_vector (v : CartesianRepresentation float) :
  is_zero_vector v = true -> norm v = 0.
Proof.
  destruct v as [a b c]. unfold is_zero_vector. simpl.
  intros H. apply andb_prop in H. destruct H as [H Hc].
  apply andb_prop in H. destruct H as [Ha Hb].
  destruct (float_zero_cases Ha) as [-> | ->];
    destruct (float_zero_cases Hb) as [-> | ->];
    destruct (float_zero_cases Hc) as [-> | ->]; reflexivity.
Qed.

Lemma normalized_zero_vector (v : CartesianRepresentation float) :
  is_zero_vector v = true -> normalized v = nan_vector.
Proof.
  intros H. unfold normalized. rewrite norm_zero_vector by exact H.
  destruct v as [a b c]. unfold is_zero_vector in H. simpl in H.
  apply andb_prop in H. destruct H as [H Hc].
  apply andb_prop in H. destruct H as [Ha Hb].
  destruct (float_zero_cases Ha) as [-> | ->];
    destruct (float_zero_cases Hb) as [-> | ->];
    destruct (float_zero_cases Hc) as [-> | ->]; reflexivity.
Qed.

Lemma dot_nan_vector_l (w : CartesianRepresentation float) : dot nan_vector w = nan.
Proof.
  unfold dot, nan_vector. simpl. rewrite !mul_nan_l. reflexivity.
Qed.

Lemma cross_nan_vector_l (w : CartesianRepresentation float) :
  cross nan_vector w = nan_vector.
Proof.
  unfold cross, nan_vector. simpl. rewrite !mul_nan_l, !sub_nan_l. reflexivity.
Qed.

(** With a projected solar north of zeros, both arguments of the arctangent
    are NaN. *)
Lemma signed_angle_degenerate (AN : Angles float)
    (sky_normal solar_north : CartesianRepresentation float) :
  is_zero_vector (cross solar_north sky_normal) = true ->
  signed_angle sky_normal solar_north = rad_to_deg (arctan2 nan nan).
Proof.
  intros H. unfold signed_angle. cbv zeta.
  rewrite normalized_zero_vector by exact H.
  rewrite cross_nan_vector_l, !dot_nan_vector_l. reflexivity.
Qed.

Lemma dot_nan_vector_r (w : CartesianRepresentation float) : dot w nan_vector = nan.
Proof.
  unfold dot, nan_vector. simpl. rewrite !mul_nan_r. reflexivity.
Qed.

Lemma cross_nan_vector_r (w : CartesianRepresentation float) :
  cross w nan_vector = nan_vector.
Proof.
  unfold cross, nan_vector. simpl. rewrite !mul_nan_r. reflexivity.
Qed.

Lemma signed_angle_z_degenerate (AN : Angles float)
    (sky_normal solar_north : CartesianRepresentation float) :
  is_zero_vector (cross unit_z sky_normal) = true ->
  signed_angle sky_normal solar_north = rad_to_deg (arctan2 nan nan).
Proof.
  intros H. unfold signed_angle. cbv zeta.
  rewrite (@normalized_zero_vector (cross unit_z sky_normal)) by exact H.
  rewrite cross_nan_vector_r, dot_nan_vector_r, dot_nan_vector_l. reflexivity.
Qed.

(** With an arctangent and a conversion that follow IEEE 754: NaN stays
    NaN, and -pi becomes -180. *)
Lemma ieee_angle_of_nans (AN : Angles float) :
  ieee_angles AN -> rad_to_deg (arctan2 nan nan) = nan.
Proof.
  intros [Hatan Hdeg].
  rewrite (Hatan nan nan nan) by reflexivity. rewrite Hdeg. apply mul_nan_l.
Qed.

Lemma ieee_angle_of_minus_pi (AN : Angles float) (y x : float) :
  ieee_angles AN -> arctan2_at_zero y x = Some (- float_pi) ->
  rad_to_deg (arctan2 y x) = -180.
Proof.
  intros [Hatan Hdeg] H. rewrite (Hatan y x (- float_pi) H), Hdeg. reflexivity.
Qed.

(** With the Sun center at (1, 0, -1) and the point of the solar north axis
    at (1, 0, -3), [sin_theta] is the negative zero and [cos_theta] is -1:
    every arctangent that follows IEEE 754 gives -pi, and the helper
    returns -180. *)
Lemma sun_north_angle_minus_180 (Time datetime EarthLocation : Type) (AN : Angles float)
    (lib : Library float Time datetime EarthLocation)
    (frame : Frame Time EarthLocation) now g c n :
  ieee_angles AN ->
  transform_to lib (hgs_sun_center (frame_obstime frame)) frame = Ok c ->
  transform_to lib (hgs_sun_north (frame_obstime frame)) frame = Ok n ->
  to_cartesian lib (sc_data c) = mkCart 1 0 (-1) ->
  to_cartesian lib (sc_data n) = mkCart 1 0 (-3) ->
  _sun_north_angle_to_z lib frame now g = (Ok (-180), g).
Proof.
  intros [Hatan Hdeg] Hc Hn Hsky Hnorth.
  rewrite (sun_north_angle_to_z_run lib frame now g Hc Hn), Hsky, Hnorth.
  unfold signed_angle. cbv zeta.
  set (pn := normalized (cross (mkCart 1 0 (-3)) (mkCart 1 0 (-1)))).
  set (pz := normalized (cross unit_z (mkCart 1 0 (-1)))).
  assert (Hsin : dot (cross pn pz) (normalized (mkCart 1 0 (-1))) = -0)
    by (vm_compute; reflexivity).
  assert (Hcos : dot pn pz = -1) by (vm_compute; reflexivity).
  rewrite Hsin, Hcos.
  rewrite (Hatan (-0) (-1) (- float_pi)) by (vm_compute; reflexivity).
  rewrite Hdeg. reflexivity.
Qed.

End FloatNaN.

(** ** The angles of the module over the real numbers *)

Section RealModel.
Context {Time datetime EarthLocation : Type}.
Variable lib : Library R Time datetime EarthLocation.

Local Open Scope R_scope.
Local Open Scope string_scope.

(** C5: whenever [get_sun_L0] returns, the longitude it returns is in
    [0, 360). *)
Theorem get_sun_L0_range (time : time_like Time) now g L0 g' :
  get_sun_L0 lib time now g = (Ok L0, g') -> 0 <= L0 < 360.
Proof.
  unfold get_sun_L0, bind, lift, ret, global.
  destruct (_astropy_time lib time now g) as [[obstime | e] g1]; [ | discriminate ].
  destruct (_time_first_rotation g1) as [t0 | ]; [ | discriminate ].
  destruct (get_earth lib (T_Time obstime) now g1) as [[earth | e] g2]; [ | discriminate ].
  destruct (transform_to lib earth (frame_of_class HCRS)) as [hcrs | e]; [ | discriminate ].
  destruct (_lon_first_rotation g2) as [lon0 | ]; [ | discriminate ].
  intros H. injection H as <- _. apply R_wrap_360_range.
Qed.

(** C4: after the import, [get_sun_L0('1853-11-09 21:36')] is zero, provided
    that the string, through [parse_time] and [Time], is the time that
    [Time('1853-11-09 21:36')] is: the sidereal component is zero there, and
    the de-tilted longitude is the one bound to [_lon_first_rotation]. *)
Theorem get_sun_L0_at_first_rotation now0 g now :
  module_init lib now0 unbound = (Ok tt, g) ->
  _astropy_time lib (T_other "1853-11-09 21:36") now g =
    (Time_of_string lib "1853-11-09 21:36", g) ->
  exists epoch earth hcrs,
    Time_of_string lib "1853-11-09 21:36" = Ok epoch /\
    get_earth lib (T_Time epoch) now g = (Ok earth, g) /\
    transform_to lib earth (frame_of_class HCRS) = Ok hcrs /\
    sidereal_component (jd lib epoch - jd lib epoch) = 0 /\
    _lon_first_rotation g = Some (detilted_longitude lib hcrs) /\
    get_sun_L0 lib (T_other "1853-11-09 21:36") now g = (Ok 0, g).
Proof.
  intros Hinit Ht. apply module_init_inv in Hinit.
  destruct Hinit as (t0 & earth0 & hcrs0 & Hs & He0 & Hh0 & ->).
  rewrite Hs in Ht.
  assert (Hsid : sidereal_component (jd lib t0 - jd lib t0) = 0).
  { unfold sidereal_component, wrap_to_360. simpl.
    replace ((jd lib t0 - jd lib t0) / (2538 / 100) * 360) with 0 by (field; lra).
    apply R_wrap_360_fixed. lra. }
  exists t0, earth0, hcrs0. repeat split; auto.
  unfold get_sun_L0, bind, lift, ret, global. rewrite Ht. simpl.
  rewrite He0, Hh0.
  fold (detilted_longitude lib hcrs0).
  unfold sidereal_component, wrap_to_360 in Hsid. simpl in Hsid. simpl. rewrite Hsid.
  replace (detilted_longitude lib hcrs0 - detilted_longitude lib hcrs0 - 0) with 0 by lra.
  rewrite R_wrap_360_fixed by lra. reflexivity.
Qed.

End RealModel.

(** C2, amended: once the Sun center and the point at 690000 km on the
    solar north axis are transformed into the frame, the helper returns,
    in degrees and unwrapped, the arctangent of [sin_theta] and
    [cos_theta], computed from the normalized line of sight and the
    normalized cross products of solar north and of the Z axis with the
    line of sight; this holds for every scalar type.  Over the reals and
    for a geometry that is not degenerate the angle is in [-180, 180].
    On binary64, with an arctangent that follows IEEE 754, the helper
    returns -180 where [sin_theta] is a negative zero and [cos_theta] is
    negative, and NaN where a projected vector is a vector of zeros. *)
Theorem sun_north_angle_to_z_formula :
  (forall (F Time datetime EarthLocation : Type) (AR : Arith F) (AN : Angles F)
          (lib : Library F Time datetime EarthLocation)
          (frame : Frame Time EarthLocation) now g c n,
      transform_to lib (hgs_sun_center (frame_obstime frame)) frame = Ok c ->
      transform_to lib (hgs_sun_north (frame_obstime frame)) frame = Ok n ->
      let sky_normal := to_cartesian lib (sc_data c) in
      let solar_north := to_cartesian lib (sc_data n) in
      let projected_north := cart_div (cross solar_north sky_normal)
                                      (norm (cross solar_north sky_normal)) in
      let projected_Z := cart_div (cross unit_z sky_normal)
                                  (norm (cross unit_z sky_normal)) in
      let unit_normal := cart_div sky_normal (norm sky_normal) in
      let cos_theta := dot projected_north projected_Z in
      let sin_theta := dot (cross projected_north projected_Z) unit_normal in
      _sun_north_angle_to_z lib frame now g =
        (Ok (rad_to_deg (arctan2 sin_theta cos_theta)), g)) /\
  (forall (Time datetime EarthLocation : Type)
          (lib : Library R Time datetime EarthLocation)
          (frame : Frame Time EarthLocation) now g c n,
      transform_to lib (hgs_sun_center (frame_obstime frame)) frame = Ok c ->
      transform_to lib (hgs_sun_north (frame_obstime frame)) frame = Ok n ->
      to_cartesian lib (sc_data c) <> null_vector ->
      cross (to_cartesian lib (sc_data n)) (to_cartesian lib (sc_data c)) <> null_vector ->
      cross unit_z (to_cartesian lib (sc_data c)) <> null_vector ->
      exists angle,
        _sun_north_angle_to_z lib frame now g = (Ok angle, g) /\
        (-180 <= angle <= 180)%R) /\
  (forall (Time datetime EarthLocation : Type) (AN : Angles float)
          (lib : Library float Time datetime EarthLocation)
          (frame : Frame Time EarthLocation) now g c n,
      ieee_angles AN ->
      transform_to lib (hgs_sun_center (frame_obstime frame)) frame = Ok c ->
      transform_to lib (hgs_sun_north (frame_obstime frame)) frame = Ok n ->
      let sky_normal := to_cartesian lib (sc_data c) in
      let solar_north := to_cartesian lib (sc_data n) in
      let projected_north := normalized (cross solar_north sky_normal) in
      let projected_Z := normalized (cross unit_z sky_normal) in
      let cos_theta := dot projected_north projected_Z in
      let sin_theta := dot (cross projected_north projected_Z) (normalized sky_normal) in
      (arctan2_at_zero sin_theta cos_theta = Some (PrimFloat.opp float_pi) ->
       _sun_north_angle_to_z lib frame now g = (Ok (-180)%float, g)) /\
      (is_zero_vector (cross solar_north sky_normal) = true \/
       is_zero_vector (cross unit_z sky_normal) = true ->
       _sun_north_angle_to_z lib frame now g = (Ok nan, g))).
Proof.
  split; [ | split ].
  - intros F Time datetime EarthLocation AR AN lib frame now g c n Hc Hn. cbv zeta.
    apply (sun_north_angle_to_z_run lib frame now g Hc Hn).
  - intros Time datetime EarthLocation lib frame now g c n Hc Hn _ _ _.
    eexists. split.
    + apply sun_north_angle_to_z_run; eassumption.
    + pose proof (rad_to_deg_range (R_arctan2_range
        (dot (cross (normalized (cross (to_cartesian lib (sc_data n))
                                       (to_cartesian lib (sc_data c))))
                    (normalized (cross unit_z (to_cartesian lib (sc_data c)))))
             (normalized (to_cartesian lib (sc_data c))))
        (dot (normalized (cross (to_cartesian lib (sc_data n))
                                (to_cartesian lib (sc_data c))))
             (normalized (cross unit_z (to_cartesian lib (sc_data c))))))) as H.
      unfold signed_angle. cbv zeta.
      change (rad_to_deg ?a) with (a * 180 / PI)%R.
      change (arctan2 ?y ?x) with (R_arctan2 y x).
      lra.
  - intros Time datetime EarthLocation AN lib frame now g c n Hieee Hc Hn. cbv zeta.
    rewrite (sun_north_angle_to_z_run lib frame now g Hc Hn).
    split.
    + intros Hpi. unfold signed_angle. cbv zeta.
      rewrite (ieee_angle_of_minus_pi _ _ Hieee Hpi). reflexivity.
    + intros [Hz | Hz].
      * rewrite signed_angle_degenerate by exact Hz.
        rewrite (ieee_angle_of_nans Hieee). reflexivity.
      * rewrite signed_angle_z_degenerate by exact Hz.
        rewrite (ieee_angle_of_nans Hieee). reflexivity.
Qed.

(** ** The divisions of the signed-angle helper *)

(** C8: the helper divides by three norms without a guard.  Over the reals,
    when the line of sight and the two projected vectors are not null, the
    three divisors are not zero and the quotients are unit vectors.  Over
    the floats, when the projected solar north is a vector of zeros (solar
    north along the line of sight), the division by its norm is 0/0: the
    helper raises nothing and returns the arctangent of two NaNs. *)
Theorem normalization_is_unguarded :
  (forall sky_normal solar_north : CartesianRepresentation R,
      sky_normal <> null_vector ->
      cross solar_north sky_normal <> null_vector ->
      cross unit_z sky_normal <> null_vector ->
      (norm sky_normal <> 0 /\
       norm (cross solar_north sky_normal) <> 0 /\
       norm (cross unit_z sky_normal) <> 0)%R /\
      (norm (normalized sky_normal) = 1 /\
       norm (normalized (cross solar_north sky_normal)) = 1 /\
       norm (normalized (cross unit_z sky_normal)) = 1)%R) /\
  (forall (Time datetime EarthLocation : Type) (AN : Angles float)
          (lib : Library float Time datetime EarthLocation)
          (frame : Frame Time EarthLocation) now g c n,
      transform_to lib (hgs_sun_center (frame_obstime frame)) frame = Ok c ->
      transform_to lib (hgs_sun_north (frame_obstime frame)) frame = Ok n ->
      is_zero_vector (cross (to_cartesian lib (sc_data n)) (to_cartesian lib (sc_data c)))
        = true ->
      norm (cross (to_cartesian lib (sc_data n)) (to_cartesian lib (sc_data c))) = 0%float /\
      normalized (cross (to_cartesian lib (sc_data n)) (to_cartesian lib (sc_data c)))
        = nan_vector /\
      _sun_north_angle_to_z lib frame now g = (Ok (rad_to_deg (arctan2 nan nan)), g)).
Proof.
  split.
  - intros sky north Hs Hn Hz. split.
    + repeat split; apply norm_nonzero; assumption.
    + repeat split; apply norm_normalized; assumption.
  - intros Time datetime EarthLocation AN lib frame now g c n Hc Hn Hz.
    split; [ | split ].
    + apply norm_zero_vector. exact Hz.
    + apply normalized_zero_vector. exact Hz.
    + rewrite (sun_north_angle_to_z_run lib frame now g Hc Hn).
      rewrite signed_angle_degenerate by exact Hz. reflexivity.
Qed.

(** ** The theorems at work on the small instance *)

Section OnTheMock.
Local Open Scope R_scope.
Local Open Scope string_scope.

Local Abbreviation lib := (Mock.library (F:=R)).
Local Abbreviation g := (Mock.globals (F:=R)).

Lemma mock_import : module_init lib 0%Z unbound = (Ok tt, g).
Proof. reflexivity. Qed.

(** The Earth one day after the epoch. *)
Lemma get_earth_longitude_zero_witness :
  exists out,
    get_earth lib (T_Time 1%Z) 0%Z g = (Ok out, g) /\
    sc_lon lib out = 0 /\
    sc_lat lib out = 0 /\
    sc_radius lib out = 0 /\
    sc_frame out = mkFrame HGS (Some 1%Z) None None.
Proof.
  exact (@get_earth_longitude_zero R Z Z unit R_Arith lib (T_Time 1%Z) 0%Z g 1%Z
           (Mock.earth_position 1)
           (mkSkyCoord (mkFrame HGS (Some 1%Z) None None)
                       (Cartesian (Mock.earth_position 1)))
           eq_refl eq_refl eq_refl).
Defined.

Lemma get_sun_B0_is_earth_latitude_witness :
  exists earth,
    get_earth lib (T_Time 1%Z) 0%Z g = (Ok earth, g) /\
    get_sun_B0 lib (T_Time 1%Z) 0%Z g = (Ok (sc_lat lib earth), g).
Proof.
  eexists. split.
  - reflexivity.
  - apply get_sun_B0_is_earth_latitude. reflexivity.
Defined.

Lemma get_sunearth_distance_is_earth_radius_witness :
  exists earth,
    get_earth lib (T_Time 1%Z) 0%Z g = (Ok earth, g) /\
    get_sunearth_distance lib (T_Time 1%Z) 0%Z g = (Ok (sc_radius lib earth), g).
Proof.
  eexists. split.
  - reflexivity.
  - apply get_sunearth_distance_is_earth_radius. reflexivity.
Defined.

Lemma get_sun_L0_formula_witness :
  exists epoch earth0 hcrs0 hcrs,
    Time_of_string lib "1853-11-09 21:36" = Ok epoch /\
    get_earth lib (T_Time epoch) 3%Z g = (Ok earth0, g) /\
    transform_to lib earth0 (frame_of_class HCRS) = Ok hcrs0 /\
    get_sun_L0 lib (T_Time 1%Z) 3%Z g =
      (Ok (wrap_to_360
             (geometric_component (detilted_longitude lib hcrs)
                                  (detilted_longitude lib hcrs0)
              - sidereal_component (jd lib 1%Z - jd lib epoch))%num), g).
Proof.
  destruct (@get_sun_L0_formula R Z Z unit R_Arith R_Angles lib 0%Z g (T_Time 1%Z) 3%Z
              1%Z _ _ mock_import eq_refl eq_refl eq_refl)
    as (epoch & earth0 & hcrs0 & H1 & H2 & H3 & H4).
  exists epoch, earth0, hcrs0. eexists. repeat split; eassumption.
Defined.

Lemma get_sun_L0_at_first_rotation_witness :
  get_sun_L0 lib (T_other "1853-11-09 21:36") 3%Z g = (Ok 0, g).
Proof.
  destruct (@get_sun_L0_at_first_rotation Z Z unit lib 0%Z g 3%Z mock_import eq_refl)
    as (epoch & earth & hcrs & _ & _ & _ & _ & _ & H).
  exact H.
Defined.

Lemma get_sun_L0_range_witness :
  exists L0, get_sun_L0 lib (T_Time 1%Z) 3%Z g = (Ok L0, g) /\ 0 <= L0 < 360.
Proof.
  eexists. split.
  - cbv -[IZR Rplus Rminus Rmult Rdiv R_wrap_360]. reflexivity.
  - apply (@get_sun_L0_range Z Z unit lib (T_Time 1%Z) 3%Z g _ g). reflexivity.
Defined.

(** The geocentric frame of the instance: the Sun center at (1, 0, 0) and
    the point of the solar north axis at (1, 0, 1). *)
Lemma mock_sky_not_null :
  mkCart (IZR 1) (IZR 0) (IZR 0 / IZR 90) <> null_vector.
Proof. intros H. injection H. intros. lra. Qed.

Lemma mock_north_projection_not_null :
  cross (mkCart (IZR 1) (IZR 0) (IZR 90 / IZR 90)) (mkCart (IZR 1) (IZR 0) (IZR 0 / IZR 90))
    <> null_vector.
Proof. unfold cross. simpl. intros H. injection H. intros. lra. Qed.

Lemma mock_z_projection_not_null :
  cross unit_z (mkCart (IZR 1) (IZR 0) (IZR 0 / IZR 90)) <> null_vector.
Proof. unfold cross, unit_z. simpl. intros H. injection H. intros. lra. Qed.

Lemma mock_angles_follow_ieee : ieee_angles Mock.float_angles_at_zero.
Proof.
  split; [ intros y x v H; simpl; rewrite H; reflexivity | reflexivity ].
Qed.

Lemma sun_north_angle_to_z_formula_witness :
  (exists angle,
      _sun_north_angle_to_z lib (Mock.geocentric 1) 3%Z g = (Ok angle, g) /\
      -180 <= angle <= 180) /\
  _sun_north_angle_to_z (AN:=Mock.float_angles_at_zero)
    (Mock.observer_library (mkCart 1 0 (-1)) (mkCart 1 0 (-3)))%float
    (Mock.geocentric 1) 3%Z unbound = (Ok (-180)%float, unbound).
Proof.
  destruct sun_north_angle_to_z_formula as (_ & HR & HF). split.
  - edestruct (HR Z Z unit lib (Mock.geocentric 1) 3%Z g) as (angle & H1 & H2).
    + reflexivity.
    + reflexivity.
    + exact mock_sky_not_null.
    + exact mock_north_projection_not_null.
    + exact mock_z_projection_not_null.
    + exists angle. split; [ exact H1 | exact H2 ].
  - edestruct (HF Z Z unit Mock.float_angles_at_zero
                 (Mock.observer_library (mkCart 1 0 (-1)) (mkCart 1 0 (-3)))%float
                 (Mock.geocentric 1) 3%Z unbound) as [H _].
    + exact mock_angles_follow_ieee.
    + vm_compute. reflexivity.
    + vm_compute. reflexivity.
    + apply H. vm_compute. reflexivity.
Defined.

Lemma public_functions_deterministic_witness :
  snd (get_sun_L0 lib (T_other "now") 3%Z g) = g /\
  snd (get_sun_L0 lib (T_other "1853-11-09 21:36") 3%Z g) = g /\
  get_sun_L0 lib (T_other "1853-11-09 21:36") 3%Z g =
    get_sun_L0 lib (T_other "1853-11-09 21:36") 4%Z g.
Proof.
  assert (Hnow : T_other (Time:=Z) "1853-11-09 21:36" <> T_other "now") by discriminate.
  destruct (@public_functions_deterministic R Z Z unit R_Arith R_Angles lib
              (T_other "now") tt 3%Z 4%Z g)
    as [(_ & _ & Hp & _) _].
  destruct (@public_functions_deterministic R Z Z unit R_Arith R_Angles lib
              (T_other "1853-11-09 21:36") tt 3%Z 4%Z g)
    as [(_ & _ & Hp' & _) Hd].
  destruct (Hd Hnow) as (_ & _ & H & _).
  split; [ exact Hp | split; [ exact Hp' | exact H ] ].
Defined.

(** On binary64, with an arctangent that follows IEEE 754: -180 is
    returned in the geocentric frame of an observer who has the Sun center
    at (1, 0, -1) and the point of the solar north axis at (1, 0, -3), and
    NaN in the horizontal frame of the instance, where solar north is
    along the line of sight. *)
Lemma sun_north_angle_outside_the_range :
  (_sun_north_angle_to_z (AN:=Mock.float_angles_at_zero)
     (Mock.observer_library (mkCart 1 0 (-1)) (mkCart 1 0 (-3)))%float
     (Mock.geocentric 1) 3%Z unbound = (Ok (-180)%float, unbound) /\
   PrimFloat.ltb (-180) (-180) = false) /\
  _sun_north_angle_to_z (AN:=Mock.float_angles_at_zero) (Mock.library (F:=float))
    (Mock.local_frame 1) 3%Z unbound = (Ok nan, unbound).
Proof.
  split; [ split | ].
  - apply (@sun_north_angle_minus_180 Z Z unit Mock.float_angles_at_zero
             (Mock.observer_library (mkCart 1 0 (-1)) (mkCart 1 0 (-3)))%float
             (Mock.geocentric 1) 3%Z unbound
             (mkSkyCoord (Mock.geocentric 1) (Cartesian (mkCart 1 0 (-1))%float))
             (mkSkyCoord (Mock.geocentric 1) (Cartesian (mkCart 1 0 (-3))%float))).
    + exact mock_angles_follow_ieee.
    + vm_compute. reflexivity.
    + vm_compute. reflexivity.
    + reflexivity.
    + reflexivity.
  - vm_compute. reflexivity.
  - vm_compute. reflexivity.
Qed.

(** The Earth at two readings of the clock. *)
Lemma get_earth_now_depends_on_clock :
  get_earth lib (T_other "now") 0%Z g <> get_earth lib (T_other "now") 1%Z g.
Proof.
  intros H. apply (f_equal fst) in H. simpl in H.
  injection H as H. discriminate H.
Qed.

(** A line of sight along x with solar north along z; and, on floats, the
    horizontal frame of the instance, where solar north is along the line
    of sight. *)
Lemma normalization_is_unguarded_witness :
  (norm (mkCart 1 0 0) <> 0 /\
   norm (normalized (cross (mkCart 0 0 1) (mkCart 1 0 0))) = 1) /\
  _sun_north_angle_to_z (AN:=Mock.float_angles) (Mock.library (F:=float))
    (Mock.local_frame 1) 3%Z unbound =
    (Ok (rad_to_deg (Angles:=Mock.float_angles)
           (arctan2 (Angles:=Mock.float_angles) nan nan)), unbound).
Proof.
  destruct normalization_is_unguarded as [HR HF]. split.
  - destruct (HR (mkCart 1 0 0) (mkCart 0 0 1)) as [(H1 & _ & _) (_ & H2 & _)].
    + intros H. injection H as H. lra.
    + simpl. intros H. injection H as _ H _. lra.
    + simpl. intros H. injection H as _ H _. lra.
    + split; [ exact H1 | exact H2 ].
  - assert (Hz : is_zero_vector
                   (cross (mkCart (of_Z 1 + of_Z 90 / of_Z 90)%num (of_Z 0) (of_Z 0))
                          (mkCart (of_Z 1 + of_Z 0 / of_Z 90)%num (of_Z 0) (of_Z 0)))
                 = true).
    { vm_compute. reflexivity. }
    destruct (HF Z Z unit Mock.float_angles (Mock.library (F:=float))
                (Mock.local_frame 1) 3%Z unbound _ _ eq_refl eq_refl Hz)
      as (_ & _ & H).
    exact H.
Defined.

End OnTheMock.

(** ** Errors, the "now" sentinel and the module-level names *)

Section Propagation.
Context {F Time datetime EarthLocation : Type}.
Context {AR : Arith F} {AN : Angles F}.
Variable lib : Library F Time datetime EarthLocation.

Local Open Scope num_scope.
Local Open Scope string_scope.

Local Abbreviation Comp := (@M F Time datetime).

(** An error of the time normalizer is the error of every public function,
    and the module-level names stay as the normalizer left them. *)
Theorem time_error_propagates (time : time_like Time) (location : EarthLocation)
    now g e g' :
  _astropy_time lib time now g = (Raise e, g') ->
  get_earth lib time now g = (Raise e, g') /\
  get_sun_B0 lib time now g = (Raise e, g') /\
  get_sun_L0 lib time now g = (Raise e, g') /\
  get_sun_P lib time now g = (Raise e, g') /\
  get_sunearth_distance lib time now g = (Raise e, g') /\
  get_sun_orientation lib location time now g = (Raise e, g').
Proof.
  intros Ht.
  assert (He : get_earth lib time now g = (Raise e, g')).
  { unfold get_earth, bind. rewrite Ht. reflexivity. }
  repeat split.
  - exact He.
  - unfold get_sun_B0, bind. rewrite He. reflexivity.
  - unfold get_sun_L0, bind. rewrite Ht. reflexivity.
  - unfold get_sun_P, bind. rewrite Ht. reflexivity.
  - unfold get_sunearth_distance, bind. rewrite He. reflexivity.
  - unfold get_sun_orientation, bind. rewrite Ht. reflexivity.
Qed.

(** An error of the ephemeris, or of the transformation of the Earth to
    HGS, is the error of [get_earth], [get_sun_B0] and
    [get_sunearth_distance], and of [get_sun_L0] once
    [_time_first_rotation] is bound. *)
Theorem earth_error_propagates (time : time_like Time) now g obstime e :
  _astropy_time lib time now g = (Ok obstime, g) ->
  (get_body_barycentric_earth lib obstime = Raise e \/
   exists earth_icrs,
     get_body_barycentric_earth lib obstime = Ok earth_icrs /\
     transform_to lib
       (mkSkyCoord (mkFrame ICRS (Some obstime) None None) (Cartesian earth_icrs))
       (frame_of_class HGS) = Raise e) ->
  get_earth lib time now g = (Raise e, g) /\
  get_sun_B0 lib time now g = (Raise e, g) /\
  get_sunearth_distance lib time now g = (Raise e, g) /\
  (forall t0, _time_first_rotation g = Some t0 ->
              get_sun_L0 lib time now g = (Raise e, g)).
Proof.
  intros Ht Hfail.
  assert (He : forall time', _astropy_time lib time' now g = (Ok obstime, g) ->
                             get_earth lib time' now g = (Raise e, g)).
  { intros time' Ht'. unfold get_earth, bind, lift. rewrite Ht'.
    destruct Hfail as [Hb | (icrs & Hb & Hx)].
    - rewrite Hb. reflexivity.
    - rewrite Hb, Hx. reflexivity. }
  repeat split.
  - apply He. exact Ht.
  - unfold get_sun_B0, bind. rewrite (He time Ht). reflexivity.
  - unfold get_sunearth_distance, bind. rewrite (He time Ht). reflexivity.
  - intros t0 H0. unfold get_sun_L0, bind, global. rewrite Ht, H0.
    rewrite (He (T_Time obstime) eq_refl). reflexivity.
Qed.

(** An error of the transformation of the Sun center into a frame, or
    else of the point of the solar north axis, is the error of the helper,
    hence of [get_sun_P] when the frame is its geocentric frame and of
    [get_sun_orientation] when it is its local frame. *)
Theorem angle_error_propagates (frame : Frame Time EarthLocation) now g e :
  (transform_to lib (hgs_sun_center (frame_obstime frame)) frame = Raise e \/
   exists c,
     transform_to lib (hgs_sun_center (frame_obstime frame)) frame = Ok c /\
     transform_to lib (hgs_sun_north (frame_obstime frame)) frame = Raise e) ->
  _sun_north_angle_to_z lib frame now g = (Raise e, g) /\
  (forall (time : time_like Time) obstime,
      _astropy_time lib time now g = (Ok obstime, g) ->
      frame = mkFrame PrecessedGeocentric (Some obstime) (Some obstime) None ->
      get_sun_P lib time now g = (Raise e, g)) /\
  (forall (location : EarthLocation) (time : time_like Time) obstime,
      _astropy_time lib time now g = (Ok obstime, g) ->
      frame = mkFrame AltAz (Some obstime) None (Some location) ->
      get_sun_orientation lib location time now g = (Raise e, g)).
Proof.
  intros Hfail.
  assert (Hh : _sun_north_angle_to_z lib frame now g = (Raise e, g)).
  { unfold _sun_north_angle_to_z, bind, lift.
    destruct Hfail as [Hc | (c & Hc & Hn)].
    - unfold hgs_sun_center in Hc. rewrite Hc. reflexivity.
    - unfold hgs_sun_center in Hc. unfold hgs_sun_north in Hn.
      rewrite Hc, Hn. reflexivity. }
  split; [ exact Hh | split ].
  - intros time obstime Ht Hf. unfold get_sun_P, bind. rewrite Ht, <- Hf. exact Hh.
  - intros location time obstime Ht Hf.
    unfold get_sun_orientation, bind. rewrite Ht, <- Hf. exact Hh.
Qed.

(** *** Which functions read the module-level names *)

Lemma unread_ret (A : Type) (a : A) : globals_independent (ret a : Comp A).
Proof. intros now g1 g2. reflexivity. Qed.

Lemma unread_lift (A : Type) (r : result A) : globals_independent (lift r : Comp A).
Proof. intros now g1 g2. reflexivity. Qed.

Lemma unread_utcnow : globals_independent (utcnow : Comp datetime).
Proof. intros now g1 g2. reflexivity. Qed.

Lemma unread_bind (A B : Type) (m : Comp A) (k : A -> Comp B) :
  globals_independent m -> (forall a, globals_independent (k a)) ->
  globals_independent (bind m k).
Proof.
  intros Hm Hk now g1 g2. unfold bind.
  specialize (Hm now g1 g2).
  destruct (m now g1) as [[a1 | e1] h1]; destruct (m now g2) as [[a2 | e2] h2];
    simpl in Hm; try discriminate.
  - injection Hm as <-. apply Hk.
  - injection Hm as <-. reflexivity.
Qed.

Lemma unread_astropy_time (time : time_like Time) :
  globals_independent (_astropy_time lib time).
Proof.
  destruct time as [t | s]; simpl.
  - apply unread_ret.
  - apply unread_bind; intros; [ | apply unread_lift ].
    unfold parse_time. destruct (String.eqb s "now");
      [ apply unread_utcnow | apply unread_lift ].
Qed.

Ltac unread_step :=
  first [ apply unread_ret | apply unread_lift | apply unread_astropy_time
        | apply unread_bind; [ | intros ] ].

Lemma unread_get_earth (time : time_like Time) :
  globals_independent (get_earth lib time).
Proof. unfold get_earth. repeat unread_step. Qed.

Lemma unread_angle_helper (frame : Frame Time EarthLocation) :
  globals_independent (_sun_north_angle_to_z lib frame).
Proof. unfold _sun_north_angle_to_z. cbv zeta. repeat unread_step. Qed.

(** Of the public functions only [get_sun_L0] reads the names bound at
    import: the outcome of each of the other five is the same whatever
    [_time_first_rotation] and [_lon_first_rotation] are, bound or not. *)
Theorem only_L0_reads_the_calibration (time : time_like Time) (location : EarthLocation)
    now (g1 g2 : Globals F Time) :
  fst (get_earth lib time now g1) = fst (get_earth lib time now g2) /\
  fst (get_sun_B0 lib time now g1) = fst (get_sun_B0 lib time now g2) /\
  fst (get_sun_P lib time now g1) = fst (get_sun_P lib time now g2) /\
  fst (get_sunearth_distance lib time now g1) =
    fst (get_sunearth_distance lib time now g2) /\
  fst (get_sun_orientation lib location time now g1) =
    fst (get_sun_orientation lib location time now g2).
Proof.
  repeat split.
  - apply unread_get_earth.
  - unfold get_sun_B0. repeat first [ apply unread_get_earth | unread_step ].
  - unfold get_sun_P. cbv zeta. repeat first [ apply unread_angle_helper | unread_step ].
  - unfold get_sunearth_distance. repeat first [ apply unread_get_earth | unread_step ].
  - unfold get_sun_orientation. cbv zeta.
    repeat first [ apply unread_angle_helper | unread_step ].
Qed.

(** The import succeeds exactly when the four library calls at the epoch
    succeed, and it then binds [_time_first_rotation] to
    [Time('1853-11-09 21:36')] and [_lon_first_rotation] to the de-tilted
    HCRS longitude of the Earth at that time, whatever the clock reads. *)
Theorem import_binds_the_calibration now0 (g : Globals F Time) :
  module_init lib now0 unbound = (Ok tt, g) <->
  exists t0 earth_icrs earth hcrs,
    Time_of_string lib "1853-11-09 21:36" = Ok t0 /\
    get_body_barycentric_earth lib t0 = Ok earth_icrs /\
    transform_to lib
      (mkSkyCoord (mkFrame ICRS (Some t0) None None) (Cartesian earth_icrs))
      (frame_of_class HGS) = Ok earth /\
    transform_to lib
      (mkSkyCoord (sc_frame earth)
         (Spherical (mkSph (of_Z 0) (sc_lat lib earth) (sc_radius lib earth))))
      (frame_of_class HCRS) = Ok hcrs /\
    g = mkGlobals (Some t0) (Some (detilted_longitude lib hcrs)).
Proof.
  unfold module_init, bind, lift, assign, global, unbound. simpl.
  unfold get_earth, bind, lift, ret. simpl.
  split.
  - destruct (Time_of_string lib "1853-11-09 21:36") as [t0 | e]; [ | discriminate ].
    simpl.
    destruct (get_body_barycentric_earth lib t0) as [icrs | e] eqn:Hb; [ | discriminate ].
    destruct (transform_to lib _ (frame_of_class HGS)) as [earth | e] eqn:He;
      [ | discriminate ].
    destruct (transform_to lib _ (frame_of_class HCRS)) as [hcrs | e] eqn:Hh;
      [ | discriminate ].
    intros H. injection H as <-.
    exists t0, icrs, earth, hcrs. repeat split; assumption.
  - intros (t0 & icrs & earth & hcrs & Hs & Hb & He & Hh & ->).
    rewrite Hs. simpl. rewrite Hb, He, Hh. reflexivity.
Qed.

End Propagation.

(** ** Geometry of the signed angle over the real numbers *)

Section Geometry.
Local Open Scope R_scope.

Lemma R_wrap_360_shift (a : R) (k : Z) : R_wrap_360 (a + 360 * IZR k) = R_wrap_360 a.
Proof.
  unfold R_wrap_360.
  assert (H : Int_part ((a + 360 * IZR k) / 360) = (Int_part (a / 360) + k)%Z).
  { symmetry. apply Int_part_spec. rewrite plus_IZR.
    destruct (base_Int_part (a / 360)) as [Hlo Hhi].
    replace ((a + 360 * IZR k) / 360) with (a / 360 + IZR k) by field.
    lra. }
  rewrite H, plus_IZR. lra.
Qed.

Lemma R_wrap_360_inner (a b : R) : R_wrap_360 (a - R_wrap_360 b) = R_wrap_360 (a - b).
Proof.
  unfold R_wrap_360 at 2.
  replace (a - (b - 360 * IZR (Int_part (b / 360))))
    with ((a - b) + 360 * IZR (Int_part (b / 360))) by lra.
  apply R_wrap_360_shift.
Qed.

Lemma dot_self_nonneg (v : CartesianRepresentation R) : 0 <= dot v v.
Proof. destruct v as [a b c]. simpl. nra. Qed.

Lemma norm_sqr (v : CartesianRepresentation R) : norm v * norm v = dot v v.
Proof. apply sqrt_sqrt, dot_self_nonneg. Qed.

Lemma dot_cart_div (a b : CartesianRepresentation R) (ka kb : R) :
  ka <> 0 -> kb <> 0 -> dot (cart_div a ka) (cart_div b kb) = dot a b / (ka * kb).
Proof. intros Ha Hb. destruct a, b. simpl. field. split; assumption. Qed.

Lemma cross_cart_div (a b : CartesianRepresentation R) (ka kb : R) :
  ka <> 0 -> kb <> 0 ->
  cross (cart_div a ka) (cart_div b kb) = cart_div (cross a b) (ka * kb).
Proof.
  intros Ha Hb. destruct a, b. unfold cross, cart_div. simpl.
  f_equal; field; split; assumption.
Qed.

Lemma circle_algebra (D T ra rb rs : R) :
  ra <> 0 -> rb <> 0 -> rs <> 0 ->
  T * T = (ra * ra * (rb * rb) - D * D) * (rs * rs) ->
  D / (ra * rb) * (D / (ra * rb)) + T / (ra * rb * rs) * (T / (ra * rb * rs)) = 1.
Proof.
  intros Ha Hb Hs HT. field_simplify_eq; [ | repeat split; assumption ]. nra.
Qed.

(** The two arguments of the arctangent are the coordinates of a point of
    the unit circle. *)
Lemma sin_cos_on_unit_circle (s n : CartesianRepresentation R) :
  s <> null_vector ->
  cross n s <> null_vector ->
  cross unit_z s <> null_vector ->
  let pn := normalized (cross n s) in
  let pz := normalized (cross unit_z s) in
  dot pn pz * dot pn pz +
  dot (cross pn pz) (normalized s) * dot (cross pn pz) (normalized s) = 1.
Proof.
  intros Hs Ha Hb. cbv zeta.
  pose proof (norm_nonzero Hs) as Hrs.
  pose proof (norm_nonzero Ha) as Hra.
  pose proof (norm_nonzero Hb) as Hrb.
  unfold normalized.
  rewrite cross_cart_div by assumption.
  rewrite !dot_cart_div
    by (try assumption; apply Rmult_integral_contrapositive_currified; assumption).
  apply circle_algebra; try assumption.
  rewrite !norm_sqr. destruct s as [s1 s2 s3], n as [n1 n2 n3]. simpl. ring.
Qed.

Lemma sqrt_one_plus_sqr_quotient (y x : R) :
  x <> 0 -> x * x + y * y = 1 -> R_sqrt.sqrt (1 + (y / x)²) = / Rabs x.
Proof.
  intros Hx H1.
  assert (Habs : 0 < Rabs x) by (apply Rabs_pos_lt; assumption).
  apply sqrt_lem_1.
  - unfold Rsqr. nra.
  - left. apply Rinv_0_lt_compat. assumption.
  - unfold Rsqr.
    assert (Hsq : Rabs x * Rabs x = x * x).
    { unfold Rabs. destruct (Rcase_abs x); ring. }
    replace (/ Rabs x * / Rabs x) with (/ (x * x)).
    + assert (E : 1 + y / x * (y / x) = (x * x + y * y) / (x * x)) by (field; assumption).
      rewrite E, H1. field. assumption.
    + rewrite <- Hsq. field. lra.
Qed.

Lemma cos_sin_atan_quotient (y x : R) :
  x <> 0 -> x * x + y * y = 1 ->
  cos (atan (y / x)) = Rabs x /\ sin (atan (y / x)) = y / x * Rabs x.
Proof.
  intros Hx H1.
  assert (Habs : 0 < Rabs x) by (apply Rabs_pos_lt; assumption).
  rewrite cos_atan, sin_atan, sqrt_one_plus_sqr_quotient by assumption.
  split; field; lra.
Qed.

(** On the unit circle the arctangent of [(x, y)] is the angle whose cosine
    is [x] and whose sine is [y]. *)
Lemma R_arctan2_on_unit_circle (y x : R) :
  x * x + y * y = 1 ->
  cos (R_arctan2 y x) = x /\ sin (R_arctan2 y x) = y.
Proof.
  intros H1. unfold R_arctan2.
  destruct (Rlt_dec 0 x) as [Hx | Hx].
  - destruct (@cos_sin_atan_quotient y x) as [Hc Hs]; [ lra | assumption | ].
    rewrite Hc, Hs, Rabs_right by lra. split; [ reflexivity | field; lra ].
  - destruct (Rlt_dec x 0) as [Hx' | Hx'].
    + destruct (@cos_sin_atan_quotient y x) as [Hc Hs]; [ lra | assumption | ].
      rewrite Rabs_left in Hc, Hs by assumption.
      destruct (Rle_dec 0 y) as [Hy | Hy].
      * rewrite neg_cos, neg_sin, Hc, Hs. split; [ ring | field; lra ].
      * unfold Rminus.
        rewrite cos_plus, sin_plus, cos_neg, sin_neg, cos_PI, sin_PI, Hc, Hs.
        split; [ ring | field; lra ].
    + assert (x = 0) by lra. subst x.
      destruct (Rlt_dec 0 y) as [Hy | Hy].
      * rewrite cos_PI2, sin_PI2. split; [ reflexivity | nra ].
      * destruct (Rlt_dec y 0) as [Hy' | Hy'].
        -- rewrite cos_neg, sin_neg, cos_PI2, sin_PI2. split; [ reflexivity | nra ].
        -- nra.
Qed.

(** For a geometry that is not degenerate, the signed angle is in
    [-180, 180] and its cosine and sine are the two arguments of the
    arctangent. *)
Lemma signed_angle_cosine_and_sine (s n : CartesianRepresentation R) :
  s <> null_vector ->
  cross n s <> null_vector ->
  cross unit_z s <> null_vector ->
  let pn := normalized (cross n s) in
  let pz := normalized (cross unit_z s) in
  -180 <= signed_angle s n <= 180 /\
  cos (signed_angle s n * PI / 180) = dot pn pz /\
  sin (signed_angle s n * PI / 180) = dot (cross pn pz) (normalized s).
Proof.
  intros Hs Ha Hb. cbv zeta.
  pose proof (sin_cos_on_unit_circle Hs Ha Hb) as Hunit. cbv zeta in Hunit.
  apply R_arctan2_on_unit_circle in Hunit. destruct Hunit as [Hcos Hsin].
  assert (Hback : forall a, a * 180 / PI * PI / 180 = a)
    by (intros a; field; apply PI_neq0).
  unfold signed_angle. cbv zeta.
  change (rad_to_deg ?a) with (a * 180 / PI).
  change (arctan2 ?y ?x) with (R_arctan2 y x).
  rewrite Hback. split; [ | split; assumption ].
  match goal with |- _ <= R_arctan2 ?y ?x * 180 / PI <= _ =>
    pose proof (rad_to_deg_range (R_arctan2_range y x)) end.
  lra.
Qed.










End Geometry.

(** ** More on the angles over the real numbers *)

Section RealAnglesOfTheModule.
Context {Time datetime EarthLocation : Type}.
Variable lib : Library R Time datetime EarthLocation.

Local Open Scope R_scope.

(** The wrap of the sidereal component does not show in the result:
    [get_sun_L0] is the de-tilted longitude, minus the reference longitude,
    minus 360 degrees per 25.38 days since the epoch, wrapped once. *)
Theorem get_sun_L0_single_wrap (time : time_like Time) now g obstime t0 lon0 earth hcrs :
  _astropy_time lib time now g = (Ok obstime, g) ->
  _time_first_rotation g = Some t0 ->
  _lon_first_rotation g = Some lon0 ->
  get_earth lib (T_Time obstime) now g = (Ok earth, g) ->
  transform_to lib earth (frame_of_class HCRS) = Ok hcrs ->
  get_sun_L0 lib time now g =
    (Ok (R_wrap_360 (detilted_longitude lib hcrs - lon0
                     - (jd lib obstime - jd lib t0) / (2538 / 100) * 360)), g).
Proof.
  intros Ht H0 Hl He Hh.
  unfold get_sun_L0, bind, lift, ret, global. rewrite Ht, H0, He, Hh, Hl.
  simpl. fold (detilted_longitude lib hcrs).
  rewrite R_wrap_360_inner. reflexivity.
Qed.

(** For a geometry that is not degenerate the helper returns, in degrees,
    an angle in [-180, 180] whose cosine is [cos_theta] and whose sine is
    [sin_theta]. *)
Theorem sun_north_angle_cosine_and_sine (frame : Frame Time EarthLocation) now g c n :
  transform_to lib (hgs_sun_center (frame_obstime frame)) frame = Ok c ->
  transform_to lib (hgs_sun_north (frame_obstime frame)) frame = Ok n ->
  let sky_normal := to_cartesian lib (sc_data c) in
  let solar_north := to_cartesian lib (sc_data n) in
  sky_normal <> null_vector ->
  cross solar_north sky_normal <> null_vector ->
  cross unit_z sky_normal <> null_vector ->
  let projected_north := normalized (cross solar_north sky_normal) in
  let projected_Z := normalized (cross unit_z sky_normal) in
  let cos_theta := dot projected_north projected_Z in
  let sin_theta := dot (cross projected_north projected_Z) (normalized sky_normal) in
  exists angle,
    _sun_north_angle_to_z lib frame now g = (Ok angle, g) /\
    -180 <= angle <= 180 /\
    cos (angle * PI / 180) = cos_theta /\
    sin (angle * PI / 180) = sin_theta.
Proof.
  intros Hc Hn sky north Hs Ha Hb. cbv zeta.
  exists (signed_angle sky north). split.
  - apply sun_north_angle_to_z_run; assumption.
  - apply (signed_angle_cosine_and_sine Hs Ha Hb).
Qed.

(** For a valid time and a geometry that is not degenerate, [get_sun_P] is
    the signed angle in the precessed geocentric frame whose equinox and
    observation time are both the time of the call: an angle in
    [-180, 180] with the cosine and the sine computed in that frame. *)
Theorem get_sun_P_is_geocentric_angle (time : time_like Time) now g obstime c n :
  _astropy_time lib time now g = (Ok obstime, g) ->
  let geocentric := mkFrame PrecessedGeocentric (Some obstime) (Some obstime) None in
  transform_to lib (hgs_sun_center (Some obstime)) geocentric = Ok c ->
  transform_to lib (hgs_sun_north (Some obstime)) geocentric = Ok n ->
  let sky_normal := to_cartesian lib (sc_data c) in
  let solar_north := to_cartesian lib (sc_data n) in
  sky_normal <> null_vector ->
  cross solar_north sky_normal <> null_vector ->
  cross unit_z sky_normal <> null_vector ->
  let projected_north := normalized (cross solar_north sky_normal) in
  let projected_Z := normalized (cross unit_z sky_normal) in
  exists angle,
    get_sun_P lib time now g = (Ok angle, g) /\
    -180 <= angle <= 180 /\
    cos (angle * PI / 180) = dot projected_north projected_Z /\
    sin (angle * PI / 180) =
      dot (cross projected_north projected_Z) (normalized sky_normal).
Proof.
  intros Ht geocentric Hc Hn sky north Hs Ha Hb. cbv zeta.
  exists (signed_angle sky north). split.
  - unfold get_sun_P, bind. rewrite Ht.
    apply (sun_north_angle_to_z_run lib geocentric now g Hc Hn).
  - apply (signed_angle_cosine_and_sine Hs Ha Hb).
Qed.

(** For a valid time and a geometry that is not degenerate,
    [get_sun_orientation] is the signed angle in the horizontal frame of
    the location at the time of the call: an angle in [-180, 180] with the
    cosine and the sine computed in that frame. *)
Theorem get_sun_orientation_is_local_angle (location : EarthLocation)
    (time : time_like Time) now g obstime c n :
  _astropy_time lib time now g = (Ok obstime, g) ->
  let local_frame := mkFrame AltAz (Some obstime) None (Some location) in
  transform_to lib (hgs_sun_center (Some obstime)) local_frame = Ok c ->
  transform_to lib (hgs_sun_north (Some obstime)) local_frame = Ok n ->
  let sky_normal := to_cartesian lib (sc_data c) in
  let solar_north := to_cartesian lib (sc_data n) in
  sky_normal <> null_vector ->
  cross solar_north sky_normal <> null_vector ->
  cross unit_z sky_normal <> null_vector ->
  let projected_north := normalized (cross solar_north sky_normal) in
  let projected_Z := normalized (cross unit_z sky_normal) in
  exists angle,
    get_sun_orientation lib location time now g = (Ok angle, g) /\
    -180 <= angle <= 180 /\
    cos (angle * PI / 180) = dot projected_north projected_Z /\
    sin (angle * PI / 180) =
      dot (cross projected_north projected_Z) (normalized sky_normal).
Proof.
  intros Ht local_frame Hc Hn sky north Hs Ha Hb. cbv zeta.
  exists (signed_angle sky north). split.
  - unfold get_sun_orientation, bind. rewrite Ht.
    apply (sun_north_angle_to_z_run lib local_frame now g Hc Hn).
  - apply (signed_angle_cosine_and_sine Hs Ha Hb).
Qed.


End RealAnglesOfTheModule.

(** ** The other division by zero, on floats *)

Section FloatZenith.
Local Open Scope float_scope.

(** On floats, when the line of sight is along the Z axis of the horizontal
    frame (the Sun at the zenith or the nadir, so that the projected Z axis
    is a vector of zeros), [get_sun_orientation] raises nothing and returns
    the arctangent of two NaNs. *)
Theorem get_sun_orientation_at_zenith
    (Time datetime EarthLocation : Type) (AN : Angles float)
    (lib : Library float Time datetime EarthLocation)
    (location : EarthLocation) (time : time_like Time) now g obstime c n :
  _astropy_time lib time now g = (Ok obstime, g) ->
  let local_frame := mkFrame AltAz (Some obstime) None (Some location) in
  transform_to lib (hgs_sun_center (Some obstime)) local_frame = Ok c ->
  transform_to lib (hgs_sun_north (Some obstime)) local_frame = Ok n ->
  is_zero_vector (cross unit_z (to_cartesian lib (sc_data c))) = true ->
  get_sun_orientation lib location time now g = (Ok (rad_to_deg (arctan2 nan nan)), g).
Proof.
  intros Ht local_frame Hc Hn Hz.
  unfold get_sun_orientation, bind. rewrite Ht.
  fold local_frame.
  rewrite (sun_north_angle_to_z_run lib local_frame now g Hc Hn).
  rewrite signed_angle_z_degenerate by exact Hz. reflexivity.
Qed.

End FloatZenith.

(** ** More of the theorems at work on the small instances *)

Section MoreOnTheMock.
Local Open Scope R_scope.
Local Open Scope string_scope.

Local Abbreviation lib := (Mock.library (F:=R)).
Local Abbreviation bounded := (Mock.bounded_library (F:=R)).
Local Abbreviation g := (Mock.globals (F:=R)).

Ltac run_mock := cbv -[IZR Rplus Rminus Rmult Rdiv Ropp R_wrap_360 R_arctan2 PI R_sqrt.sqrt];
                 reflexivity.

(** An input that the parser rejects. *)
Lemma time_error_propagates_witness :
  get_earth lib (T_other "yesterday") 3%Z g = (Raise TimeParsingError, g) /\
  get_sun_L0 lib (T_other "yesterday") 3%Z g = (Raise TimeParsingError, g) /\
  get_sun_orientation lib tt (T_other "yesterday") 3%Z g = (Raise TimeParsingError, g).
Proof.
  destruct (@time_error_propagates R Z Z unit R_Arith R_Angles lib
              (T_other "yesterday") tt 3%Z g TimeParsingError g eq_refl)
    as (H1 & _ & H3 & _ & _ & H6).
  split; [ exact H1 | split; [ exact H3 | exact H6 ] ].
Defined.

(** The day before the epoch, where the bounded ephemeris fails. *)
Lemma earth_error_propagates_witness :
  get_earth bounded (T_Time (-1)%Z) 3%Z g = (Raise EphemerisError, g) /\
  get_sun_B0 bounded (T_Time (-1)%Z) 3%Z g = (Raise EphemerisError, g) /\
  get_sunearth_distance bounded (T_Time (-1)%Z) 3%Z g = (Raise EphemerisError, g) /\
  get_sun_L0 bounded (T_Time (-1)%Z) 3%Z g = (Raise EphemerisError, g).
Proof.
  destruct (@earth_error_propagates R Z Z unit R_Arith R_Angles bounded
              (T_Time (-1)%Z) 3%Z g (-1)%Z EphemerisError eq_refl (or_introl eq_refl))
    as (H1 & H2 & H3 & H4).
  split; [ exact H1 | split; [ exact H2 | split; [ exact H3 | ] ] ].
  apply (H4 0%Z). reflexivity.
Defined.

Lemma angle_error_propagates_witness :
  get_sun_P bounded (T_Time (-1)%Z) 3%Z g = (Raise FrameTransformError, g).
Proof.
  destruct (@angle_error_propagates R Z Z unit R_Arith R_Angles bounded
              (Mock.geocentric (-1)) 3%Z g FrameTransformError (or_introl eq_refl))
    as (_ & H & _).
  apply (H (T_Time (-1)%Z) (-1)%Z); reflexivity.
Defined.

Lemma get_sun_L0_single_wrap_witness :
  exists hcrs lon0,
    get_sun_L0 lib (T_Time 1%Z) 3%Z g =
      (Ok (R_wrap_360 (detilted_longitude lib hcrs - lon0
                       - (jd lib 1%Z - jd lib 0%Z) / (2538 / 100) * 360)), g).
Proof.
  eexists.
  eexists.
  eapply (@get_sun_L0_single_wrap Z Z unit lib (T_Time 1%Z) 3%Z g 1%Z 0%Z).
  - reflexivity.
  - reflexivity.
  - run_mock.
  - run_mock.
  - run_mock.
Defined.

Lemma sun_north_angle_cosine_and_sine_witness :
  exists angle,
    _sun_north_angle_to_z lib (Mock.geocentric 1) 3%Z g = (Ok angle, g) /\
    -180 <= angle <= 180.
Proof.
  edestruct (@sun_north_angle_cosine_and_sine Z Z unit lib (Mock.geocentric 1) 3%Z g)
    as (angle & H1 & H2 & _).
  - reflexivity.
  - reflexivity.
  - exact mock_sky_not_null.
  - exact mock_north_projection_not_null.
  - exact mock_z_projection_not_null.
  - exists angle. split; [ exact H1 | exact H2 ].
Defined.

Lemma get_sun_P_is_geocentric_angle_witness :
  exists angle, get_sun_P lib (T_Time 1%Z) 3%Z g = (Ok angle, g) /\ -180 <= angle <= 180.
Proof.
  edestruct (@get_sun_P_is_geocentric_angle Z Z unit lib (T_Time 1%Z) 3%Z g 1%Z)
    as (angle & H1 & H2 & _).
  - reflexivity.
  - reflexivity.
  - reflexivity.
  - exact mock_sky_not_null.
  - exact mock_north_projection_not_null.
  - exact mock_z_projection_not_null.
  - exists angle. split; [ exact H1 | exact H2 ].
Defined.

(** An observer on the ground who has the Sun center at (1, 0, 0) and the
    point of the solar north axis at (1, 0, 1). *)
Lemma get_sun_orientation_is_local_angle_witness :
  exists angle,
    get_sun_orientation (Mock.observer_library (mkCart 1 0 0) (mkCart 1 0 1)) tt
      (T_Time 1%Z) 3%Z g = (Ok angle, g) /\
    -180 <= angle <= 180.
Proof.
  edestruct (@get_sun_orientation_is_local_angle Z Z unit
               (Mock.observer_library (mkCart 1 0 0) (mkCart 1 0 1)) tt
               (T_Time 1%Z) 3%Z g 1%Z)
    as (angle & H1 & H2 & _).
  - reflexivity.
  - reflexivity.
  - reflexivity.
  - simpl. intros H. injection H. intros. lra.
  - unfold cross. simpl. intros H. injection H. intros. lra.
  - unfold cross, unit_z. simpl. intros H. injection H. intros. lra.
  - exists angle. split; [ exact H1 | exact H2 ].
Defined.



(** The Sun at the zenith, on floats. *)
Lemma get_sun_orientation_at_zenith_witness :
  get_sun_orientation (AN:=Mock.float_angles) (Mock.zenith_library (F:=float)) tt
    (T_Time 1%Z) 3%Z unbound =
    (Ok (rad_to_deg (Angles:=Mock.float_angles)
           (arctan2 (Angles:=Mock.float_angles) nan nan)), unbound).
Proof.
  assert (Hz : is_zero_vector
                 (cross unit_z (mkCart (of_Z 0) (of_Z 0 / of_Z 90)%num (of_Z 1))) = true).
  { vm_compute. reflexivity. }
  exact (@get_sun_orientation_at_zenith Z Z unit Mock.float_angles
           (Mock.zenith_library (F:=float)) tt (T_Time 1%Z) 3%Z unbound 1%Z _ _
           eq_refl eq_refl eq_refl Hz).
Defined.

End MoreOnTheMock.
